(** * MovieNightBot: the action dispatch pipeline

    A shallow embedding of [movienightbot/actions/__init__.py]
    ([BaseAction._check_proceed], [BaseAction.__call__],
    [BaseAction.get_message_data]) and of
    [movienightbot/actions/user_vote_count.py]
    ([UserVoteCountAction.action]), with the properties the specification
    states about them. *)

From Stdlib Require Import ZArith List String Ascii Bool Lia DecimalString.
Import ListNotations.
Set Warnings "-register-all".
Open Scope string_scope.
Open Scope list_scope.
Open Scope Z_scope.

(** ** Python string primitives

    A Python [str] is modelled as a [string] whose characters are read as
    the code points below 256. *)
Module PyStr.

(** [str.isspace] on one code point below 256: TAB, LF, VT, FF, CR, the
    separators FS, GS, RS, US, the space, NEL and the no-break space. *)
Definition isspace (c : ascii) : bool :=
  let n := nat_of_ascii c in
  ((9 <=? n) && (n <=? 13) || (28 <=? n) && (n <=? 32)
   || (n =? 133) || (n =? 160))%nat.

Definition is_empty (s : string) : bool :=
  match s with
  | EmptyString => true
  | String _ _ => false
  end.

(** [s.lstrip()], [s.rstrip()] and [s.strip()]. *)
Fixpoint lstrip (s : string) : string :=
  match s with
  | EmptyString => EmptyString
  | String c rest => if isspace c then lstrip rest else s
  end.

Fixpoint rstrip (s : string) : string :=
  match s with
  | EmptyString => EmptyString
  | String c rest =>
      let rest' := rstrip rest in
      if isspace c && is_empty rest' then EmptyString else String c rest'
  end.

Definition strip (s : string) : string := rstrip (lstrip s).

(** Puts [c] in front of the first field of a list of fields. *)
Definition cons_first (c : ascii) (fields : list string) : list string :=
  match fields with
  | [] => [String c EmptyString]
  | w :: ws => String c w :: ws
  end.

(** [s.split(sep, maxsplit)] for a one-character separator: [limit] is
    the number of splits still allowed, [None] for no bound.  Empty
    fields are kept. *)
Fixpoint split_on (sep : ascii) (limit : option nat) (s : string)
  : list string :=
  match s with
  | EmptyString => [EmptyString]
  | String c rest =>
      if Ascii.eqb c sep then
        match limit with
        | None => EmptyString :: split_on sep None rest
        | Some (S k) => EmptyString :: split_on sep (Some k) rest
        | Some O => cons_first c (split_on sep (Some O) rest)
        end
      else cons_first c (split_on sep limit rest)
  end.

(** A negative [maxsplit] means no bound. *)
Definition split (s : string) (sep : ascii) (maxsplit : Z) : list string :=
  split_on sep (if maxsplit <? 0 then None else Some (Z.to_nat maxsplit)) s.

(** [s.split()]: the fields between white space, empty ones dropped. *)
Fixpoint ws_fields (s : string) : list string :=
  match s with
  | EmptyString => [EmptyString]
  | String c rest =>
      if isspace c then EmptyString :: ws_fields rest
      else cons_first c (ws_fields rest)
  end.

Definition split_ws (s : string) : list string :=
  filter (fun w => negb (is_empty w)) (ws_fields s).

(** [c in s] for one character. *)
Fixpoint contains (c : ascii) (s : string) : bool :=
  match s with
  | EmptyString => false
  | String d rest => Ascii.eqb d c || contains c rest
  end.

(** [sep.join(parts)]. *)
Definition join (sep : string) (parts : list string) : string :=
  String.concat sep parts.

(** [str(n)] for an integer. *)
Definition of_int (n : Z) : string := NilZero.string_of_int (Z.to_int n).

Definition is_digit (c : ascii) : bool :=
  let n := nat_of_ascii c in ((48 <=? n) && (n <=? 57))%nat.

Definition digit_value (c : ascii) : Z := Z.of_nat (nat_of_ascii c) - 48.

(** The digits of a decimal literal after its first digit: a single
    underscore is allowed between two digits.  [acc] is the value read so
    far; [None] is a malformed literal. *)
Fixpoint digits_from (acc : Z) (s : string) : option Z :=
  match s with
  | EmptyString => Some acc
  | String c rest =>
      if is_digit c then digits_from (10 * acc + digit_value c) rest
      else if Ascii.eqb c "_" then
        match rest with
        | String d rest' =>
            if is_digit d then digits_from (10 * acc + digit_value d) rest'
            else None
        | EmptyString => None
        end
      else None
  end.

Definition unsigned_literal (s : string) : option Z :=
  match s with
  | String c rest => if is_digit c then digits_from (digit_value c) rest else None
  | EmptyString => None
  end.

(** [int(s)] in base 10: surrounding white space is dropped, one sign is
    allowed; [None] stands for the [ValueError]. *)
Definition to_int (s : string) : option Z :=
  match strip s with
  | String "-" rest => option_map Z.opp (unsigned_literal rest)
  | String "+" rest => unsigned_literal rest
  | body => unsigned_literal body
  end.

End PyStr.

(** ** Python values and exceptions *)

(** The objects a reply can be addressed to.  Python compares them by
    identity ([target is msg.author]): [MsgChannel] is the object
    [msg.channel], [MsgAuthor] the object [msg.author], and
    [OtherSendable n] any other channel or user. *)
Inductive Sendable :=
| MsgChannel
| MsgAuthor
| OtherSendable (n : nat).

(** The values an action can return.  A [dict] is kept as the list of its
    items, with string keys (the keys of keyword options); [VObject] is
    any object without a [send] method. *)
Inductive PyVal :=
| VNone
| VBool (b : bool)
| VInt (n : Z)
| VStr (s : string)
| VTuple (items : list PyVal)
| VList (items : list PyVal)
| VDict (items : list (string * PyVal))
| VSendable (t : Sendable)
| VObject (n : nat).

(** The subclasses of [Exception] the code can meet.  [Forbidden code] is
    [discord.Forbidden] with its [e.code]; [DoesNotExist] is peewee's;
    [Error name] is any other exception class. *)
Inductive Exn :=
| Forbidden (code : Z)
| DoesNotExist
| AttributeError
| ValueError
| TypeError
| Error (name : string).

(** ** The world outside the dispatch core *)

(** A row of the per-server settings table. *)
Record ServerRow := {
  id : Z;
  channel : Z;
  admin_role : string;
  message_timeout : Z;
  num_votes_per_user : Z
}.

Inductive Level := DEBUG | INFO | ERROR.

(** What the code does to the outside, in the order it does it: a record
    handed to a logger (a text, or an exception with its traceback), a call
    of [target.send] with positional arguments [args] and keyword
    arguments [kwargs], a call of [cleanup_messages]. *)
Inductive Event :=
| Log (logger_name : string) (lvl : Level) (record : string + Exn)
| Send (target : Sendable) (args : list PyVal) (kwargs : list (string * PyVal))
| Cleanup (also_delete : PyVal) (sec_delay : Z).

(** The state threaded through one dispatch: the events so far, the
    settings table, and the chat platform's answers to the [send] calls
    still to come, in order ([Some e]: that call raises [e]; [None], or no
    answer left: the message is delivered). *)
Record World := {
  trace : list Event;
  servers : list ServerRow;
  platform : list (option Exn)
}.

Definition emit (ev : Event) (w : World) : World :=
  {| trace := trace w ++ [ev]; servers := servers w; platform := platform w |}.

Definition set_servers (rows : list ServerRow) (w : World) : World :=
  {| trace := trace w; servers := rows; platform := platform w |}.

Definition set_platform (answers : list (option Exn)) (w : World) : World :=
  {| trace := trace w; servers := servers w; platform := answers |}.

(** ** Effects: state and exceptions

    A computation returns a value or raises; what it did to the world
    before raising stays done. *)
Inductive Result (A : Type) :=
| Ok (a : A)
| Raise (e : Exn).
Arguments Ok {A} a.
Arguments Raise {A} e.

Definition M (A : Type) : Type := World -> Result A * World.

Definition ret {A} (a : A) : M A := fun w => (Ok a, w).

Definition raise {A} (e : Exn) : M A := fun w => (Raise e, w).

Definition bind {A B} (m : M A) (k : A -> M B) : M B :=
  fun w =>
    match m w with
    | (Ok a, w') => k a w'
    | (Raise e, w') => (Raise e, w')
    end.

(** [try: body / except Exception as e: handler e]. *)
Definition try_except {A} (body : M A) (handler : Exn -> M A) : M A :=
  fun w =>
    match body w with
    | (Ok a, w') => (Ok a, w')
    | (Raise e, w') => handler e w'
    end.

(** Runs [body] and hands back how it ended, for a [try] whose handlers
    read the locals assigned before the exception. *)
Definition attempt {A} (body : M A) : M (Exn + A) :=
  fun w =>
    match body w with
    | (Ok a, w') => (Ok (inr a), w')
    | (Raise e, w') => (Ok (inl e), w')
    end.

Declare Scope py_scope.
Delimit Scope py_scope with py.
Notation "x <- m ;; k" := (bind m (fun x => k))
  (at level 61, m at next level, right associativity) : py_scope.
Notation "m ;; k" := (bind m (fun _ => k))
  (at level 61, right associativity) : py_scope.
Open Scope py_scope.

(** [logger.debug(text)], [logger.info(text)], [logger.error(text)]. *)
Definition log (logger_name : string) (lvl : Level) (text : string) : M unit :=
  fun w => (Ok tt, emit (Log logger_name lvl (inl text)) w).

(** [logger.error(e, exc_info=e)]. *)
Definition log_exception (logger_name : string) (e : Exn) : M unit :=
  fun w => (Ok tt, emit (Log logger_name ERROR (inr e)) w).

(** The platform's answer to the next [send] call, and the world once
    that answer is used up. *)
Definition next_answer (w : World) : option Exn :=
  match platform w with
  | answer :: _ => answer
  | [] => None
  end.

Definition answered (w : World) : World := set_platform (tl (platform w)) w.

(** [await target.send(...)] on a channel or user: the call is recorded,
    and the platform's next answer decides how it ends. *)
Definition send (target : Sendable) (args : list PyVal)
    (kwargs : list (string * PyVal)) : M unit :=
  fun w =>
    let w' := answered (emit (Send target args kwargs) w) in
    match next_answer w with
    | Some e => (Raise e, w')
    | None => (Ok tt, w')
    end.

(** The [send] calls made so far. *)
Definition is_send (ev : Event) : bool :=
  match ev with
  | Send _ _ _ => true
  | _ => false
  end.

Definition sends (w : World) : list Event := filter is_send (trace w).

(** *** The persistence collaborator *)

(** Modelled from the spec: [ServerController.get_by_id] of
    [movienightbot.db.controllers], which is not part of the sources at
    hand.  It loads the settings row of a guild and fails when the guild
    has no record. *)
Definition get_by_id (guild_id : Z) : M ServerRow :=
  fun w =>
    match find (fun row => id row =? guild_id) (servers w) with
    | Some row => (Ok row, w)
    | None => (Raise DoesNotExist, w)
    end.

(** Modelled from the spec: [ServerController.update], which stores the
    row under its own [id]. *)
Definition update (row : ServerRow) : M unit :=
  fun w =>
    (Ok tt,
     set_servers
       (map (fun old => if id old =? id row then row else old) (servers w)) w).

(** Modelled from the spec: [ServerController.transaction], the
    transactional scope: the writes of a body that raises are undone. *)
Definition transaction {A} (body : M A) : M A :=
  fun w =>
    match body w with
    | (Ok a, w') => (Ok a, w')
    | (Raise e, w') => (Raise e, set_servers (servers w) w')
    end.

(** Modelled from the spec: [cleanup_messages] of [movienightbot.util],
    which schedules the deletion of the given messages after the delay and
    surfaces no failure. *)
Definition cleanup_messages (also_delete : PyVal) (sec_delay : Z) : M unit :=
  fun w => (Ok tt, emit (Cleanup also_delete sec_delay) w).

(** *** The chat client's message *)

Record Guild := {
  guild_id : Z;
  guild_name : string
}.

Record Channel := {
  channel_id : Z;
  channel_name : string
}.

(** [msg.author]: [administrator] is
    [guild_permissions.administrator], [roles] the names of the author's
    roles. *)
Record Author := {
  author_name : string;
  administrator : bool;
  roles : list string
}.

(** [guild] is [None] for a direct message. *)
Record Message := {
  content : string;
  guild : option Guild;
  msg_channel : Channel;
  author : Author
}.

(** [msg.guild.id] and [msg.guild.name] need a guild. *)
Definition msg_guild (msg : Message) : M Guild :=
  match guild msg with
  | Some g => ret g
  | None => raise AttributeError
  end.

(** ** [BaseAction] *)

(** A concrete action: its class attributes and its [action] coroutine. *)
Record Action := {
  action_name : string;
  admin : bool;
  guild_only : bool;
  action : Message -> M PyVal
}.

Definition error_message : string :=
  "OOPSIE WOOPSIE!! UwU We made a fucky wucky!! A wittle fucko boingo! The code "
  ++ "monkeys at our headquarters are working VEWY HAWD to fix this!".

Definition is_none {A} (o : option A) : bool :=
  match o with
  | None => true
  | Some _ => false
  end.

(** [x in names] for a set of strings. *)
Definition mem_string (x : string) (names : list string) : bool :=
  existsb (String.eqb x) names.

(** [BaseAction._check_proceed]. *)
Definition _check_proceed (self : Action) (msg : Message) : M bool :=
  if guild_only self && is_none (guild msg) then
    log "root" DEBUG
      ("User " ++ author_name (author msg) ++ " trying non-DM action in a DM") ;;
    send MsgAuthor [VStr "You can't do this command from a DM!"] [] ;;
    ret false
  else
    g <- msg_guild msg ;;
    server_settings <- get_by_id (guild_id g) ;;
    if negb (channel_id (msg_channel msg) =? channel server_settings) then
      log "root" DEBUG
        ("User " ++ author_name (author msg) ++ " using non-permitted channel "
         ++ channel_name (msg_channel msg) ++ " instead of "
         ++ PyStr.of_int (channel server_settings)) ;;
      ret false
    else if negb (administrator (author msg))
            && (admin self
                && negb (mem_string (admin_role server_settings)
                           (roles (author msg)))) then
      log "root" DEBUG
        ("User " ++ author_name (author msg) ++ " does not have admin") ;;
      send MsgChannel [VStr "Hey now, you're not an admin on this server!"] [] ;;
      ret false
    else ret true.

(** [args["also_delete"]], when [args] is a dict with that key. *)
Fixpoint lookup_key (key : string) (items : list (string * PyVal))
  : option PyVal :=
  match items with
  | [] => None
  | (k, v) :: rest => if String.eqb k key then Some v else lookup_key key rest
  end.

(** [await target.send(...)] on any value: one without a [send] method
    raises. *)
Definition send_to (target : PyVal) (args : list PyVal)
    (kwargs : list (string * PyVal)) : M unit :=
  match target with
  | VSendable t => send t args kwargs
  | _ => raise AttributeError
  end.

(** The chain [if type(args) is str: ... elif type(args) is tuple: ...
    elif type(args) is dict: ...] of [__call__], which the source has once
    for [target] and once for [msg.channel]. *)
Definition send_payload (target : PyVal) (args : PyVal) : M unit :=
  match args with
  | VStr _ => send_to target [args] []
  | VTuple items => send_to target items []
  | VDict items => send_to target [] items
  | _ => ret tt
  end.

(** [target is msg.author]. *)
Definition is_author (target : PyVal) : bool :=
  match target with
  | VSendable MsgAuthor => true
  | _ => false
  end.

(** The [except] clauses of the second [try] of [__call__]; [target] and
    [args] are the locals as they stand when the exception is raised. *)
Definition on_exception (msg : Message) (target args : PyVal) (e : Exn)
  : M unit :=
  match e with
  | Forbidden code =>
      if code =? 50007 then
        if is_author target then send_payload (VSendable MsgChannel) args
        else
          send MsgChannel
            [VStr ("I can't DM you " ++ author_name (author msg) ++ "!")] []
      else
        log_exception "movienightbot" e ;;
        send MsgChannel [VStr error_message] []
  | _ =>
      log_exception "movienightbot" e ;;
      send MsgChannel [VStr error_message] []
  end.

(** Lines 81 to 88 of [__call__]: the messages under ["also_delete"] are
    handed to [cleanup_messages] when the server has a timeout. *)
Definition schedule_cleanup (server_settings : ServerRow) (args : PyVal)
  : M unit :=
  match args with
  | VDict items =>
      match lookup_key "also_delete" items with
      | Some also_delete =>
          if message_timeout server_settings >? 0 then
            cleanup_messages also_delete (message_timeout server_settings)
          else ret tt
      | None => ret tt
      end
  | _ => ret tt
  end.

(** The body of the second [try] once [rt] is known to be a pair
    [(target, args)]: lines 81 to 95. *)
Definition deliver (server_settings : ServerRow) (target args : PyVal)
  : M unit :=
  schedule_cleanup server_settings args ;;
  send_payload target args.

(** The text logged on line 70. *)
Definition running_text (self : Action) (msg : Message) : string :=
  let guild_text :=
    match guild msg with
    | Some g => guild_name g
    | None => "DM"
    end in
  "Running action " ++ action_name self ++ " on " ++ guild_text
  ++ " from user " ++ author_name (author msg).

(** Lines 68 to 115 of [__call__]: what follows the first [try]. *)
Definition run_action (self : Action) (msg : Message) : M unit :=
  g <- msg_guild msg ;;
  server_settings <- get_by_id (guild_id g) ;;
  log "movienightbot" INFO (running_text self msg) ;;
  rt <- attempt (action self msg) ;;
  match rt with
  | inl e => on_exception msg VNone VNone e
  | inr (VTuple [target; args]) =>
      try_except (deliver server_settings target args)
        (on_exception msg target args)
  | inr _ =>
      log "movienightbot" ERROR "Action did not return a two-member tuple!"
  end.

(** [BaseAction.__call__].  The first [try] returns when the check says
    no; its handler logs, notifies the channel and has no [return], so
    control goes on to the rest of the function. *)
Definition __call__ (self : Action) (msg : Message) : M unit :=
  proceed <- try_except (_check_proceed self msg)
               (fun e =>
                  log_exception "movienightbot" e ;;
                  send MsgChannel [VStr error_message] [] ;;
                  ret true) ;;
  if negb proceed then ret tt else run_action self msg.

(** [BaseAction.get_message_data]: a [str] when [data_parts] is 1, a tuple
    of [str] otherwise. *)
Definition get_message_data (msg : Message) (data_parts : Z) : PyVal :=
  let data := tl (PyStr.split (PyStr.strip (content msg)) " " data_parts) in
  let data := map (fun s => PyStr.join " " (PyStr.split_ws s)) data in
  if data_parts =? 1 then
    match data with
    | [] => VStr ""
    | first :: _ => VStr first
    end
  else VTuple (map VStr data).

(** ** [UserVoteCountAction] *)

(** [int(v)]. *)
Definition py_int (v : PyVal) : M Z :=
  match v with
  | VStr s =>
      match PyStr.to_int s with
      | Some n => ret n
      | None => raise ValueError
      end
  | VInt n => ret n
  | VBool b => ret (if b then 1 else 0)
  | _ => raise TypeError
  end.

(** [server_row.num_votes_per_user = n]. *)
Definition set_num_votes_per_user (n : Z) (row : ServerRow) : ServerRow :=
  {| id := id row;
     channel := channel row;
     admin_role := admin_role row;
     message_timeout := message_timeout row;
     num_votes_per_user := n |}.

(** [UserVoteCountAction.action]; [requested] is the local
    [num_votes_per_user]. *)
Definition user_vote_count_action (msg : Message) : M PyVal :=
  requested <- py_int (get_message_data msg 1) ;;
  requested <- py_int (VInt requested) ;;
  if requested <? 1 then
    ret (VTuple [VSendable MsgChannel;
                 VStr "Failed: Number of votes per user must be greater than zero."])
  else
    transaction
      (g <- msg_guild msg ;;
       server_row <- get_by_id (guild_id g) ;;
       if requested <? num_votes_per_user server_row then
         ret (VTuple [VSendable MsgChannel;
                      VStr ("Failed to update: Number of votes per user must be >= "
                            ++ PyStr.of_int (num_votes_per_user server_row))])
       else
         update (set_num_votes_per_user requested server_row) ;;
         ret (VTuple [VSendable MsgChannel;
                      VStr ("Number of votes per user updated to "
                            ++ PyStr.of_int requested)])).

Definition UserVoteCountAction : Action :=
  {| action_name := "user_vote_count";
     admin := true;
     guild_only := true;
     action := user_vote_count_action |}.

(** The setting [get_by_id] would find for a guild. *)
Definition stored_votes (gid : Z) (w : World) : option Z :=
  option_map num_votes_per_user (find (fun row => id row =? gid) (servers w)).

(** ** Vocabulary of the statements *)

(** The world in which the body of the action starts: line 70 has logged
    that the action runs. *)
Definition started (self : Action) (msg : Message) (w : World) : World :=
  emit (Log "movienightbot" INFO (inl (running_text self msg))) w.

(** How a [send] ends on a given answer of the platform. *)
Definition send_result (answer : option Exn) : Result unit :=
  match answer with
  | Some e => Raise e
  | None => Ok tt
  end.

(** The reply protocol in the spec's words: the arguments of the [send]
    call a payload stands for.  A plain string is sent as it is, a tuple
    is spread over the positional arguments, a mapping over the keyword
    options; any other value stands for no call. *)
Definition spec_send_call (payload : PyVal)
  : option (list PyVal * list (string * PyVal)) :=
  match payload with
  | VStr s => Some ([VStr s], [])
  | VTuple items => Some (items, [])
  | VDict items => Some ([], items)
  | _ => None
  end.

(** ** Sample invocations *)

Definition movie_guild : Guild := {| guild_id := 7; guild_name := "Cinema" |}.

Definition movie_channel : Channel :=
  {| channel_id := 70; channel_name := "movie-night" |}.

Definition lobby_channel : Channel :=
  {| channel_id := 71; channel_name := "lobby" |}.

Definition dm_channel : Channel := {| channel_id := 900; channel_name := "" |}.

Definition movie_row : ServerRow :=
  {| id := 7; channel := 70; admin_role := "Movie Master";
     message_timeout := 10; num_votes_per_user := 3 |}.

Definition alice : Author :=
  {| author_name := "alice"; administrator := false; roles := ["everyone"] |}.

Definition host : Author :=
  {| author_name := "host"; administrator := false;
     roles := ["everyone"; "Movie Master"] |}.

Definition message (text : string) (g : option Guild) (c : Channel)
    (a : Author) : Message :=
  {| content := text; guild := g; msg_channel := c; author := a |}.

(** A server with its settings row, no event yet, and a platform that
    answers the coming [send] calls with [answers]. *)
Definition world_with (answers : list (option Exn)) : World :=
  {| trace := []; servers := [movie_row]; platform := answers |}.

(** The same platform for a guild that has no settings row. *)
Definition world_without_row : World :=
  {| trace := []; servers := []; platform := [] |}.

(** An action whose body ends the way [outcome] says, doing nothing
    else. *)
Definition action_ending (is_admin : bool) (outcome : Result PyVal) : Action :=
  {| action_name := "sample";
     admin := is_admin;
     guild_only := true;
     action := fun _ w => (outcome, w) |}.

(** A message of [alice], who is no admin, in the configured channel. *)
Definition alice_says (text : string) : Message :=
  message text (Some movie_guild) movie_channel alice.

(** The text line 70 logs for [alice_says] and a sample action. *)
Definition running_sample : Event :=
  Log "movienightbot" INFO
    (inl "Running action sample on Cinema from user alice").

(** ** [CancelVoteAction] *)

(** The field of a vote row the action reads. *)
Record VoteRow := {
  message_id : Z
}.

Section CancelVote.

(** The collaborators of the action that the sources at hand do not
    hold, taken as parameters: [VoteController.get_by_id] and
    [VoteController.cancel_vote] of [movienightbot.db.controllers], and the
    chat client's [msg.channel.fetch_message], [vote_msg.clear_reactions]
    and [vote_msg.edit] (with its [content] and [embed] arguments). *)
Variable vote_get_by_id : Z -> M VoteRow.
Variable cancel_vote : Z -> M unit.
Variable fetch_message : Z -> M PyVal.
Variable clear_reactions : PyVal -> M unit.
Variable edit : PyVal -> string -> PyVal -> M unit.

(** [CancelVoteAction.action].  The [with] block gives [None] when the
    handler of [DoesNotExist] returns from the function, and the id of the
    vote message otherwise; an exception of another class is not caught. *)
Definition cancel_vote_action (msg : Message) : M PyVal :=
  g <- msg_guild msg ;;
  let server_id := guild_id g in
  in_transaction <-
    transaction
      (found <- attempt (vote_get_by_id server_id) ;;
       match found with
       | inr row =>
           cancel_vote server_id ;;
           ret (Some (message_id row))
       | inl DoesNotExist =>
           send MsgChannel [VStr "No vote started!"] [] ;;
           ret None
       | inl e => raise e
       end) ;;
  match in_transaction with
  | None => ret VNone
  | Some vote_msg_id =>
      vote_msg <- fetch_message vote_msg_id ;;
      clear_reactions vote_msg ;;
      edit vote_msg "The movie vote has been cancelled." VNone ;;
      ret VNone
  end.

Definition CancelVoteAction : Action :=
  {| action_name := "cancel_vote";
     admin := true;
     guild_only := true;
     action := cancel_vote_action |}.

End CancelVote.

(** ** [_get_actions] *)

(** [s.startswith(prefix)] and [s.endswith(suffix)]. *)
Definition startswith (s prefix : string) : bool := String.prefix prefix s.

Fixpoint endswith (s suffix : string) : bool :=
  String.eqb s suffix
  || match s with
     | EmptyString => false
     | String _ rest => endswith rest suffix
     end.

(** A [dict] with string keys, as the list of its items in insertion
    order: [d.get(key)] and [d[key] = v]. *)
Fixpoint dict_get {V : Type} (key : string) (d : list (string * V))
  : option V :=
  match d with
  | [] => None
  | (k, v) :: rest => if String.eqb k key then Some v else dict_get key rest
  end.

Fixpoint dict_set {V : Type} (key : string) (v : V) (d : list (string * V))
  : list (string * V) :=
  match d with
  | [] => [(key, v)]
  | (k, old) :: rest =>
      if String.eqb k key then (k, v) :: rest
      else (k, old) :: dict_set key v rest
  end.

(** What the discovery uses of a class object: [issubclass(class_def,
    BaseAction)], and what calling the class gives (a class that leaves an
    abstract method out raises).  The key [class_def.action_name] is read
    off the instance. *)
Record ClassObj := {
  is_base_action : bool;
  instantiate : Result Action
}.

(** What the discovery uses of an entry of the actions directory: its
    name, whether it is a directory, the names of the [ClassDef] nodes
    that [ast.walk] finds in its text, and the namespace [rc.__dict__] of
    the imported module; parsing and importing may raise. *)
Record SourceFile := {
  file_name : string;
  is_dir : bool;
  class_defs : Result (list string);
  module_dict : Result (list (string * ClassObj))
}.

(** The test of line 174: the entries the loop goes past. *)
Definition skipped (file : SourceFile) : bool :=
  is_dir file
  || startswith (file_name file) "__"
  || negb (endswith (file_name file) ".py").

(** The inner loop, lines 182 to 186. *)
Fixpoint register_classes (rc : list (string * ClassObj))
    (classes : list string) (actions : list (string * Action))
  : Result (list (string * Action)) :=
  match classes with
  | [] => Ok actions
  | class_name :: rest =>
      match dict_get class_name rc with
      | None => Raise (Error "KeyError")
      | Some class_def =>
          if negb (is_base_action class_def) then
            register_classes rc rest actions
          else
            match instantiate class_def with
            | Raise e => Raise e
            | Ok instance =>
                register_classes rc rest
                  (dict_set (action_name instance) instance actions)
            end
      end
  end.

(** The outer loop, lines 173 to 186, over the entries in the order
    [iterdir] yields them. *)
Fixpoint scan_files (files : list SourceFile)
    (actions : list (string * Action)) : Result (list (string * Action)) :=
  match files with
  | [] => Ok actions
  | file :: rest =>
      if skipped file then scan_files rest actions
      else
        match class_defs file with
        | Raise e => Raise e
        | Ok classes =>
            match module_dict file with
            | Raise e => Raise e
            | Ok rc =>
                match register_classes rc classes actions with
                | Raise e => Raise e
                | Ok actions' => scan_files rest actions'
                end
            end
        end
  end.

(** [_get_actions], on the entries of the directory of the package. *)
Definition _get_actions (files : list SourceFile)
  : Result (list (string * Action)) :=
  scan_files files [].

(** The two modules of the package as the discovery sees them, the vote
    collaborators of [CancelVoteAction] being given, and a few other
    entries of the directory. *)
Definition action_class (a : Action) : ClassObj :=
  {| is_base_action := true; instantiate := Ok a |}.

Definition python_file (name class_name : string) (a : Action) : SourceFile :=
  {| file_name := name;
     is_dir := false;
     class_defs := Ok [class_name];
     module_dict :=
       Ok [("BaseAction",
            {| is_base_action := true; instantiate := Raise TypeError |});
           (class_name, action_class a)] |}.

Definition other_entry (name : string) (dir : bool) : SourceFile :=
  {| file_name := name;
     is_dir := dir;
     class_defs := Raise (Error "IsADirectoryError");
     module_dict := Raise (Error "ModuleNotFoundError") |}.

(** A row of the vote table and collaborators that do nothing, for
    sample runs of [CancelVoteAction]. *)
Definition quiet_cancel_vote : Action :=
  CancelVoteAction
    (fun _ => ret {| message_id := 555 |})
    (fun _ => ret tt)
    (fun n => ret (VObject 1))
    (fun _ => ret tt)
    (fun _ _ _ => ret tt).

Definition no_vote_cancel_vote : Action :=
  CancelVoteAction
    (fun _ => raise DoesNotExist)
    (fun _ => ret tt)
    (fun n => ret (VObject 1))
    (fun _ => ret tt)
    (fun _ _ _ => ret tt).

Definition actions_directory : list SourceFile :=
  [other_entry "__pycache__" true;
   other_entry "__init__.py" false;
   python_file "cancel_vote.py" "CancelVoteAction" quiet_cancel_vote;
   other_entry "README.md" false;
   python_file "user_vote_count.py" "UserVoteCountAction" UserVoteCountAction].

(** A message of [host], who holds the admin role, in the configured
    channel. *)
Definition host_says (text : string) : Message :=
  message text (Some movie_guild) movie_channel host.

(** A computation that leaves the settings table as it finds it. *)
Definition keeps_servers {A : Type} (m : M A) : Prop :=
  forall w, servers (snd (m w)) = servers w.

(** A word is a non-empty string without white space; a tidy string is
    made of words with one space between them. *)
Fixpoint has_whitespace (s : string) : bool :=
  match s with
  | EmptyString => false
  | String c rest => PyStr.isspace c || has_whitespace rest
  end.

Definition is_word (s : string) : bool :=
  negb (PyStr.is_empty s) && negb (has_whitespace s).

Definition tidy (s : string) : Prop :=
  exists words, s = PyStr.join " " words /\ forallb is_word words = true.

(** * Properties *)

(** ** Bookkeeping on worlds *)

Lemma sends_emit ev w :
  sends (emit ev w) = sends w ++ (if is_send ev then [ev] else []).
Proof.
  unfold sends, emit; simpl. rewrite filter_app; simpl.
  destruct (is_send ev); reflexivity.
Qed.

Lemma sends_answered w : sends (answered w) = sends w.
Proof. reflexivity. Qed.

Lemma next_answer_emit ev w : next_answer (emit ev w) = next_answer w.
Proof. reflexivity. Qed.

Lemma send_accepted target args kwargs w :
  next_answer w = None ->
  send target args kwargs w = (Ok tt, answered (emit (Send target args kwargs) w)).
Proof. intros H; unfold send; rewrite H; reflexivity. Qed.

Lemma send_refused target args kwargs w e :
  next_answer w = Some e ->
  send target args kwargs w
  = (Raise e, answered (emit (Send target args kwargs) w)).
Proof. intros H; unfold send; rewrite H; reflexivity. Qed.

Lemma get_by_id_found gid row w :
  find (fun r => id r =? gid) (servers w) = Some row ->
  get_by_id gid w = (Ok row, w).
Proof. intros H; unfold get_by_id; rewrite H; reflexivity. Qed.

Lemma get_by_id_missing gid w :
  find (fun r => id r =? gid) (servers w) = None ->
  get_by_id gid w = (Raise DoesNotExist, w).
Proof. intros H; unfold get_by_id; rewrite H; reflexivity. Qed.

(** ** The permission gate *)

(** What [__call__] does with a direct message for a guild-only action,
    whatever the platform answers: it returns after the notice when the
    notice is delivered; when it is not, the handler of the first [try]
    logs the exception and notifies the channel, and line 68 fails on
    [msg.guild.id]. *)
Lemma call_guild_only_in_dm self msg w :
  guild_only self = true ->
  guild msg = None ->
  let w1 :=
    answered
      (emit (Send MsgAuthor [VStr "You can't do this command from a DM!"] [])
         (emit (Log "root" DEBUG
                  (inl ("User " ++ author_name (author msg)
                        ++ " trying non-DM action in a DM")%string)) w)) in
  __call__ self msg w
  = match next_answer w with
    | None => (Ok tt, w1)
    | Some e =>
        (Raise match next_answer w1 with
               | Some e' => e'
               | None => AttributeError
               end,
         answered
           (emit (Send MsgChannel [VStr error_message] [])
              (emit (Log "movienightbot" ERROR (inr e)) w1)))
    end.
Proof.
  intros Honly Hdm w1.
  assert (Hcheck : _check_proceed self msg w
                   = (match next_answer w with
                      | None => Ok false
                      | Some e => Raise e
                      end, w1)).
  { unfold _check_proceed. rewrite Honly, Hdm. simpl.
    unfold bind, log, send. rewrite next_answer_emit.
    destruct (next_answer w); reflexivity. }
  unfold __call__, bind at 1, try_except. rewrite Hcheck.
  destruct (next_answer w) as [e|]; [|reflexivity].
  unfold bind at 1, bind at 1, log_exception, send.
  rewrite next_answer_emit.
  destruct (next_answer w1) as [e'|]; [reflexivity|].
  unfold ret at 1. simpl negb. cbv iota.
  unfold run_action, bind at 1, msg_guild. rewrite Hdm. reflexivity.
Qed.

(** C7, as the code has it. A guild-only action invoked from a direct
    message: [_check_proceed] makes exactly one [send], of the notice, on
    the author, and never answers [True]; it answers [False] when the
    platform delivers the notice and raises the platform's exception when
    it does not.  With the notice delivered [__call__] returns there,
    nothing having been sent to the channel.  Delivered or not, the body
    of the action plays no part: [__call__] does the same for every
    guild-only action. *)
Theorem guild_only_action_in_dm self msg w :
  guild_only self = true ->
  guild msg = None ->
  let notice := Send MsgAuthor [VStr "You can't do this command from a DM!"] [] in
  let w' :=
    answered
      (emit notice
         (emit (Log "root" DEBUG
                  (inl ("User " ++ author_name (author msg)
                        ++ " trying non-DM action in a DM")%string)) w)) in
  _check_proceed self msg w
  = (match next_answer w with
     | None => Ok false
     | Some e => Raise e
     end, w')
  /\ sends w' = sends w ++ [notice]
  /\ (next_answer w = None -> __call__ self msg w = (Ok tt, w'))
  /\ (forall other,
         guild_only other = true ->
         __call__ other msg w = __call__ self msg w).
Proof.
  intros Honly Hdm notice w'. split; [|split; [|split]].
  - unfold _check_proceed. rewrite Honly, Hdm. simpl.
    unfold bind, log, send. rewrite next_answer_emit.
    destruct (next_answer w); reflexivity.
  - subst w'. rewrite sends_answered, !sends_emit. simpl.
    rewrite app_nil_r. reflexivity.
  - intros Hacc. rewrite (call_guild_only_in_dm self msg w Honly Hdm), Hacc.
    reflexivity.
  - intros other Hother.
    rewrite (call_guild_only_in_dm self msg w Honly Hdm).
    rewrite (call_guild_only_in_dm other msg w Hother Hdm).
    reflexivity.
Qed.

(** C6. An invocation from a guild channel other than the configured one:
    [_check_proceed] answers [False] and [__call__] returns, having
    written one debug record and called [send] on nothing, whatever the
    body of the action is. *)
Theorem wrong_channel_is_silent self msg w g row :
  guild msg = Some g ->
  find (fun r => id r =? guild_id g) (servers w) = Some row ->
  channel_id (msg_channel msg) <> channel row ->
  let w' :=
    emit (Log "root" DEBUG
            (inl ("User " ++ author_name (author msg)
                  ++ " using non-permitted channel "
                  ++ channel_name (msg_channel msg) ++ " instead of "
                  ++ PyStr.of_int (channel row))%string)) w in
  _check_proceed self msg w = (Ok false, w')
  /\ __call__ self msg w = (Ok tt, w')
  /\ sends w' = sends w.
Proof.
  intros Hg Hrow Hch w'.
  assert (Hcheck : _check_proceed self msg w = (Ok false, w')).
  { unfold _check_proceed. rewrite Hg, andb_false_r.
    unfold bind, msg_guild. rewrite Hg. unfold ret at 1.
    rewrite (get_by_id_found _ _ _ Hrow).
    apply Z.eqb_neq in Hch. rewrite Hch. reflexivity. }
  split; [exact Hcheck|]. split.
  - unfold __call__, bind, try_except. rewrite Hcheck. reflexivity.
  - subst w'. rewrite sends_emit. simpl. apply app_nil_r.
Qed.

Lemma guild_only_action_in_dm_witness :
  __call__ UserVoteCountAction
    (message "m!user_vote_count 4" None dm_channel alice) (world_with [])
  = (Ok tt,
     {| trace :=
          [Log "root" DEBUG (inl "User alice trying non-DM action in a DM");
           Send MsgAuthor [VStr "You can't do this command from a DM!"] []];
        servers := [movie_row];
        platform := [] |}).
Proof.
  apply (proj1 (proj2 (proj2 (guild_only_action_in_dm UserVoteCountAction
           (message "m!user_vote_count 4" None dm_channel alice)
           (world_with []) eq_refl eq_refl)))).
  reflexivity.
Defined.

(** A counterexample to C7 as the spec states it: the platform answers
    the notice to the author with [Forbidden], code 50007.
    [_check_proceed] raises instead of denying, the channel is sent the
    generic message, and an [AttributeError] leaves [__call__]. *)
Lemma dm_notice_refused :
  guild_only UserVoteCountAction = true
  /\ guild (message "m!user_vote_count 4" None dm_channel alice) = None
  /\ _check_proceed UserVoteCountAction
       (message "m!user_vote_count 4" None dm_channel alice)
       (world_with [Some (Forbidden 50007)])
     = (Raise (Forbidden 50007),
        {| trace :=
             [Log "root" DEBUG (inl "User alice trying non-DM action in a DM");
              Send MsgAuthor [VStr "You can't do this command from a DM!"] []];
           servers := [movie_row];
           platform := [] |})
  /\ __call__ UserVoteCountAction
       (message "m!user_vote_count 4" None dm_channel alice)
       (world_with [Some (Forbidden 50007)])
     = (Raise AttributeError,
        {| trace :=
             [Log "root" DEBUG (inl "User alice trying non-DM action in a DM");
              Send MsgAuthor [VStr "You can't do this command from a DM!"] [];
              Log "movienightbot" ERROR (inr (Forbidden 50007));
              Send MsgChannel [VStr error_message] []];
           servers := [movie_row];
           platform := [] |}).
Proof. repeat split. Qed.

Lemma wrong_channel_is_silent_witness :
  __call__ UserVoteCountAction
    (message "m!user_vote_count 4" (Some movie_guild) lobby_channel host)
    (world_with [])
  = (Ok tt,
     {| trace :=
          [Log "root" DEBUG
             (inl "User host using non-permitted channel lobby instead of 70")];
        servers := [movie_row];
        platform := [] |}).
Proof.
  apply (wrong_channel_is_silent UserVoteCountAction
           (message "m!user_vote_count 4" (Some movie_guild) lobby_channel host)
           (world_with []) movie_guild movie_row);
    [reflexivity | reflexivity | simpl; lia].
Defined.

(** C5, as the code has it. The admin check, for an invocation that got
    past the first two checks (a guild message in the configured channel).
    An admin-only action invoked by an author with neither the
    administrator flag nor the configured admin role: [_check_proceed]
    makes exactly one [send], of the refusal, on the channel, and never
    answers [True]; it answers [False] when the platform delivers the
    refusal and raises the platform's exception when it does not.  With
    the refusal delivered [__call__] returns there.  An author with the
    flag or with the role passes: [_check_proceed] answers [True] and
    leaves the world as it was. *)
Theorem admin_check self msg w g row :
  guild msg = Some g ->
  find (fun r => id r =? guild_id g) (servers w) = Some row ->
  channel_id (msg_channel msg) = channel row ->
  (admin self = true ->
   administrator (author msg) = false ->
   mem_string (admin_role row) (roles (author msg)) = false ->
   let refusal :=
     Send MsgChannel [VStr "Hey now, you're not an admin on this server!"] [] in
   let w' :=
     answered
       (emit refusal
          (emit (Log "root" DEBUG
                   (inl ("User " ++ author_name (author msg)
                         ++ " does not have admin")%string)) w)) in
   _check_proceed self msg w
   = (match next_answer w with
      | None => Ok false
      | Some e => Raise e
      end, w')
   /\ sends w' = sends w ++ [refusal]
   /\ (next_answer w = None -> __call__ self msg w = (Ok tt, w')))
  /\ (administrator (author msg) = true
      \/ mem_string (admin_role row) (roles (author msg)) = true ->
      _check_proceed self msg w = (Ok true, w)).
Proof.
  intros Hg Hrow Hch.
  assert (Hstart : forall k : ServerRow -> M bool,
             (g' <- msg_guild msg ;; s <- get_by_id (guild_id g') ;; k s) w
             = k row w).
  { intros k. unfold bind, msg_guild. rewrite Hg. unfold ret at 1.
    rewrite (get_by_id_found _ _ _ Hrow). reflexivity. }
  split.
  - intros Hadmin Hflag Hrole refusal w'.
    assert (Hcheck : _check_proceed self msg w
                     = (match next_answer w with
                        | None => Ok false
                        | Some e => Raise e
                        end, w')).
    { unfold _check_proceed. rewrite Hg, andb_false_r, Hstart.
      rewrite Hch, Z.eqb_refl, Hflag, Hadmin, Hrole. simpl.
      unfold bind, log, send. rewrite next_answer_emit.
      destruct (next_answer w); reflexivity. }
    split; [exact Hcheck|]. split.
    + subst w'. rewrite sends_answered, !sends_emit. simpl.
      rewrite app_nil_r. reflexivity.
    + intros Hacc. unfold __call__, bind, try_except.
      rewrite Hcheck, Hacc. reflexivity.
  - intros Hpass.
    unfold _check_proceed. rewrite Hg, andb_false_r, Hstart.
    rewrite Hch, Z.eqb_refl. simpl.
    destruct Hpass as [Hflag | Hrole].
    + rewrite Hflag. reflexivity.
    + rewrite Hrole, andb_false_r, andb_false_r. reflexivity.
Qed.

Lemma admin_check_witness :
  __call__ UserVoteCountAction
    (message "m!user_vote_count 4" (Some movie_guild) movie_channel alice)
    (world_with [])
  = (Ok tt,
     {| trace :=
          [Log "root" DEBUG (inl "User alice does not have admin");
           Send MsgChannel
             [VStr "Hey now, you're not an admin on this server!"] []];
        servers := [movie_row];
        platform := [] |})
  /\ _check_proceed UserVoteCountAction
       (message "m!user_vote_count 4" (Some movie_guild) movie_channel host)
       (world_with [])
     = (Ok true, world_with []).
Proof.
  split.
  - apply (proj2 (proj2 (proj1 (admin_check UserVoteCountAction
             (message "m!user_vote_count 4" (Some movie_guild) movie_channel alice)
             (world_with []) movie_guild movie_row eq_refl eq_refl eq_refl)
             eq_refl eq_refl eq_refl))).
    reflexivity.
  - apply (proj2 (admin_check UserVoteCountAction
             (message "m!user_vote_count 4" (Some movie_guild) movie_channel host)
             (world_with []) movie_guild movie_row eq_refl eq_refl eq_refl)).
    right; reflexivity.
Defined.

(** A counterexample to C5 as the spec states it: [alice], who has
    neither the flag nor the role, invokes the admin-only
    [user_vote_count] in the configured channel, and the platform answers
    the refusal with an error.  [_check_proceed] raises instead of
    denying, and [__call__] then runs the body, which stores 4. *)
Lemma admin_refusal_refused :
  admin UserVoteCountAction = true
  /\ administrator (author (alice_says "m!user_vote_count 4")) = false
  /\ mem_string (admin_role movie_row)
       (roles (author (alice_says "m!user_vote_count 4"))) = false
  /\ _check_proceed UserVoteCountAction (alice_says "m!user_vote_count 4")
       (world_with [Some (Error "DiscordServerError")])
     = (Raise (Error "DiscordServerError"),
        {| trace :=
             [Log "root" DEBUG (inl "User alice does not have admin");
              Send MsgChannel
                [VStr "Hey now, you're not an admin on this server!"] []];
           servers := [movie_row];
           platform := [] |})
  /\ stored_votes 7
       (snd (__call__ UserVoteCountAction (alice_says "m!user_vote_count 4")
               (world_with [Some (Error "DiscordServerError")])))
     = Some 4
  /\ sends
       (snd (__call__ UserVoteCountAction (alice_says "m!user_vote_count 4")
               (world_with [Some (Error "DiscordServerError")])))
     = [Send MsgChannel
          [VStr "Hey now, you're not an admin on this server!"] [];
        Send MsgChannel [VStr error_message] [];
        Send MsgChannel [VStr "Number of votes per user updated to 4"] []].
Proof. repeat split. Qed.

(** ** Argument extraction *)

Lemma split_on_without_separator sep limit s :
  PyStr.contains sep s = false -> PyStr.split_on sep limit s = [s].
Proof.
  induction s as [|c rest IH]; simpl; intros H.
  - reflexivity.
  - apply orb_false_iff in H as [Hc Hrest].
    rewrite Hc, (IH Hrest). reflexivity.
Qed.

(** C8. [get_message_data] with one expected part: on the text
    "m!suggest   Some   Movie" it gives "Some Movie", and on a text that,
    once stripped, holds no space (the command token alone) it gives the
    empty string. *)
Theorem get_message_data_one_part :
  (forall g c a,
      get_message_data (message "m!suggest   Some   Movie" g c a) 1
      = VStr "Some Movie")
  /\ (forall msg,
         PyStr.contains " " (PyStr.strip (content msg)) = false ->
         get_message_data msg 1 = VStr "").
Proof.
  split.
  - intros g c a. reflexivity.
  - intros msg H. unfold get_message_data, PyStr.split.
    rewrite (split_on_without_separator _ _ _ H). reflexivity.
Qed.

Lemma get_message_data_one_part_witness :
  get_message_data (message "  m!suggest  " None dm_channel alice) 1 = VStr "".
Proof.
  apply (proj2 get_message_data_one_part
           (message "  m!suggest  " None dm_channel alice)).
  reflexivity.
Defined.

(** ** The dispatch envelope *)

Lemma send_by_answer target args kwargs w :
  send target args kwargs w
  = (send_result (next_answer w), answered (emit (Send target args kwargs) w)).
Proof. unfold send. destruct (next_answer w); reflexivity. Qed.

Lemma send_payload_by_shape target payload args kwargs :
  spec_send_call payload = Some (args, kwargs) ->
  send_payload (VSendable target) payload = send target args kwargs.
Proof.
  destruct payload; simpl; intros H; inversion H; subst; reflexivity.
Qed.

(** [schedule_cleanup] never raises, calls [send] on nothing and leaves
    the settings and the platform alone. *)
Lemma schedule_cleanup_safe row payload w :
  exists w',
    schedule_cleanup row payload w = (Ok tt, w')
    /\ sends w' = sends w
    /\ next_answer w' = next_answer w
    /\ servers w' = servers w.
Proof.
  unfold schedule_cleanup.
  destruct payload; try (exists w; repeat split; reflexivity).
  destruct (lookup_key "also_delete" items); [|exists w; repeat split; reflexivity].
  destruct (message_timeout row >? 0); [|exists w; repeat split; reflexivity].
  eexists; split; [reflexivity|].
  rewrite sends_emit. simpl. rewrite app_nil_r. repeat split; reflexivity.
Qed.

Lemma schedule_cleanup_plain row payload w :
  (forall items, payload <> VDict items) ->
  schedule_cleanup row payload w = (Ok tt, w).
Proof.
  intros H. destruct payload; try reflexivity. exfalso; exact (H items eq_refl).
Qed.

(** When [_check_proceed] answers [True] it has done nothing to the world,
    and the message has a guild with a settings row. *)
Lemma check_proceed_true self msg w w' :
  _check_proceed self msg w = (Ok true, w') ->
  w' = w
  /\ exists g row,
       guild msg = Some g
       /\ find (fun r => id r =? guild_id g) (servers w) = Some row.
Proof.
  unfold _check_proceed.
  destruct (guild_only self && is_none (guild msg)) eqn:Hdm.
  - unfold bind, log. rewrite send_by_answer.
    destruct (next_answer _); simpl; discriminate.
  - unfold bind, msg_guild.
    destruct (guild msg) as [g|] eqn:Hg; [|discriminate].
    unfold ret at 1. unfold get_by_id.
    destruct (find _ (servers w)) as [row|] eqn:Hrow; [|discriminate].
    destruct (negb (channel_id (msg_channel msg) =? channel row));
      [unfold log; discriminate|].
    destruct (negb (administrator (author msg)) && _).
    + unfold log. rewrite send_by_answer.
      destruct (next_answer _); simpl; discriminate.
    + unfold ret. intros H; inversion H; subst. split; [reflexivity|].
      exists g, row. split; [reflexivity | exact Hrow].
Qed.

(** When [_check_proceed] raises, [__call__] logs, notifies the channel
    and, once that notice is delivered, goes on with line 68. *)
Lemma check_exception_falls_through self msg w e w1 :
  _check_proceed self msg w = (Raise e, w1) ->
  next_answer w1 = None ->
  __call__ self msg w
  = run_action self msg
      (answered
         (emit (Send MsgChannel [VStr error_message] [])
            (emit (Log "movienightbot" ERROR (inr e)) w1))).
Proof.
  intros Hcheck Hacc. unfold __call__, bind at 1, try_except.
  rewrite Hcheck. unfold bind at 1, bind at 1, log_exception.
  rewrite send_accepted by exact Hacc. reflexivity.
Qed.

(** The reply protocol on a payload of one of the three shapes: after the
    cleanup is scheduled, one [send] call on the target, which ends as the
    platform answers. *)
Lemma deliver_by_shape row target payload args kwargs w :
  spec_send_call payload = Some (args, kwargs) ->
  let w' :=
    answered
      (emit (Send target args kwargs) (snd (schedule_cleanup row payload w))) in
  deliver row (VSendable target) payload w = (send_result (next_answer w), w')
  /\ sends w' = sends w ++ [Send target args kwargs].
Proof.
  intros Hshape w'. subst w'.
  destruct (schedule_cleanup_safe row payload w) as (w2 & Hrun & Hs & Hn & _).
  rewrite Hrun. simpl. split.
  - unfold deliver, bind. rewrite Hrun.
    rewrite (send_payload_by_shape _ _ _ _ Hshape), send_by_answer, Hn.
    reflexivity.
  - rewrite sends_answered, sends_emit, Hs. reflexivity.
Qed.

Section Permitted.

(** An invocation the permission check lets through: a guild message, the settings
    row of the guild, and [_check_proceed] answering [True]. *)
Variables (self : Action) (msg : Message) (w : World).
Variables (g : Guild) (row : ServerRow).
Hypothesis Hguild : guild msg = Some g.
Hypothesis Hrow : find (fun r => id r =? guild_id g) (servers w) = Some row.
Hypothesis Hcheck : _check_proceed self msg w = (Ok true, w).

Lemma call_when_body_raises e w1 :
  action self msg (started self msg w) = (Raise e, w1) ->
  __call__ self msg w = on_exception msg VNone VNone e w1.
Proof.
  intros Hbody. unfold __call__, bind at 1, try_except. rewrite Hcheck. simpl.
  unfold run_action, bind at 1, msg_guild. rewrite Hguild. unfold ret at 1.
  unfold bind at 1. rewrite (get_by_id_found _ _ _ Hrow).
  unfold bind at 1, log. fold (started self msg w).
  unfold bind, attempt. rewrite Hbody. reflexivity.
Qed.

Lemma call_when_body_returns rt w1 :
  action self msg (started self msg w) = (Ok rt, w1) ->
  __call__ self msg w
  = match rt with
    | VTuple [target; args] =>
        try_except (deliver row target args) (on_exception msg target args) w1
    | _ =>
        log "movienightbot" ERROR "Action did not return a two-member tuple!" w1
    end.
Proof.
  intros Hbody. unfold __call__, bind at 1, try_except. rewrite Hcheck. simpl.
  unfold run_action, bind at 1, msg_guild. rewrite Hguild. unfold ret at 1.
  unfold bind at 1. rewrite (get_by_id_found _ _ _ Hrow).
  unfold bind at 1, log. fold (started self msg w).
  unfold bind, attempt. rewrite Hbody.
  destruct rt as [| | | |items| | | |]; try reflexivity.
  destruct items as [|target [|args [|extra more]]]; reflexivity.
Qed.

(** C9. The body returns a value that is not a pair: [__call__] writes
    one error record and returns; the [send] calls are those the body
    made. *)
Theorem malformed_result_gets_no_reply rt w1 :
  action self msg (started self msg w) = (Ok rt, w1) ->
  (forall target args, rt <> VTuple [target; args]) ->
  let w' :=
    emit (Log "movienightbot" ERROR
            (inl "Action did not return a two-member tuple!")) w1 in
  __call__ self msg w = (Ok tt, w') /\ sends w' = sends w1.
Proof.
  intros Hbody Hshape w'. split.
  - rewrite (call_when_body_returns _ _ Hbody).
    destruct rt as [| | | |items| | | |]; try reflexivity.
    destruct items as [|target [|args [|extra more]]]; try reflexivity.
    exfalso. exact (Hshape target args eq_refl).
  - subst w'. rewrite sends_emit. simpl. apply app_nil_r.
Qed.

(** C2, as the code has it. The body raises an exception other than
    [Forbidden] with code 50007: [__call__] logs the exception and calls
    [send] once, with the generic message, on the channel.  It returns
    normally when the platform delivers that message; an exception the
    platform answers that [send] with leaves [__call__]. *)
Theorem action_fault_is_reported e w1 :
  action self msg (started self msg w) = (Raise e, w1) ->
  e <> Forbidden 50007 ->
  let notice := Send MsgChannel [VStr error_message] [] in
  let w' :=
    answered (emit notice (emit (Log "movienightbot" ERROR (inr e)) w1)) in
  __call__ self msg w = (send_result (next_answer w1), w')
  /\ sends w' = sends w1 ++ [notice].
Proof.
  intros Hbody Hcode notice w'. split.
  - rewrite (call_when_body_raises _ _ Hbody).
    assert (Hgeneric :
              (log_exception "movienightbot" e ;;
               send MsgChannel [VStr error_message] []) w1
              = (send_result (next_answer w1), w')).
    { unfold bind, log_exception. rewrite send_by_answer.
      rewrite next_answer_emit. destruct (next_answer w1); reflexivity. }
    unfold on_exception. destruct e as [code| | | | |name]; try exact Hgeneric.
    destruct (code =? 50007) eqn:Hc; [|exact Hgeneric].
    apply Z.eqb_eq in Hc. subst code. exfalso; apply Hcode; reflexivity.
  - subst w'. rewrite sends_answered, !sends_emit. simpl.
    rewrite app_nil_r. reflexivity.
Qed.

(** C4. The body returns [(target, payload)] and the platform delivers
    the reply: [__call__] makes exactly one [send] call, on [target]; a
    string is its one positional argument, the items of a tuple are the
    positional arguments, the items of a mapping the keyword arguments. *)
Theorem reply_is_sent_once target payload w1 :
  action self msg (started self msg w)
  = (Ok (VTuple [VSendable target; payload]), w1) ->
  next_answer w1 = None ->
  (forall s, payload = VStr s ->
     __call__ self msg w
     = (Ok tt, answered (emit (Send target [VStr s] []) w1)))
  /\ (forall items, payload = VTuple items ->
        __call__ self msg w
        = (Ok tt, answered (emit (Send target items []) w1)))
  /\ (forall items, payload = VDict items ->
        __call__ self msg w
        = (Ok tt,
           answered
             (emit (Send target [] items)
                (snd (schedule_cleanup row payload w1)))))
  /\ (forall args kwargs, spec_send_call payload = Some (args, kwargs) ->
        sends (snd (__call__ self msg w))
        = sends w1 ++ [Send target args kwargs]).
Proof.
  intros Hbody Hacc.
  assert (Hcall : forall args kwargs,
             spec_send_call payload = Some (args, kwargs) ->
             __call__ self msg w
             = (Ok tt,
                answered
                  (emit (Send target args kwargs)
                     (snd (schedule_cleanup row payload w1))))).
  { intros args kwargs Hshape.
    rewrite (call_when_body_returns _ _ Hbody). unfold try_except.
    destruct (deliver_by_shape row target payload args kwargs w1 Hshape)
      as [Hrun _].
    rewrite Hrun, Hacc. reflexivity. }
  repeat split.
  - intros s ->. exact (Hcall _ _ eq_refl).
  - intros items ->. exact (Hcall _ _ eq_refl).
  - intros items ->. exact (Hcall _ _ eq_refl).
  - intros args kwargs Hshape. rewrite (Hcall _ _ Hshape). simpl.
    apply (deliver_by_shape row target payload args kwargs w1 Hshape).
Qed.

(** C3. The body returns [(target, payload)] and the platform answers
    the [send] on [target] with [Forbidden], code 50007.  When [target] is
    the author of the message, [__call__] calls [send] once more, on the
    channel, with the same arguments; when it is not, the one further
    [send] tells the channel that the author cannot be messaged.  Either
    way [__call__] ends as that last [send] does. *)
Theorem refused_dm_goes_to_channel target payload args kwargs w1 :
  action self msg (started self msg w)
  = (Ok (VTuple [VSendable target; payload]), w1) ->
  spec_send_call payload = Some (args, kwargs) ->
  next_answer w1 = Some (Forbidden 50007) ->
  let refused := Send target args kwargs in
  let w2 := answered (emit refused (snd (schedule_cleanup row payload w1))) in
  (target = MsgAuthor ->
   let w' := answered (emit (Send MsgChannel args kwargs) w2) in
   __call__ self msg w = (send_result (next_answer w2), w')
   /\ sends w' = sends w1 ++ [refused; Send MsgChannel args kwargs])
  /\ (target <> MsgAuthor ->
      let notice :=
        Send MsgChannel
          [VStr ("I can't DM you " ++ author_name (author msg) ++ "!")] [] in
      let w' := answered (emit notice w2) in
      __call__ self msg w = (send_result (next_answer w2), w')
      /\ sends w' = sends w1 ++ [refused; notice]).
Proof.
  intros Hbody Hshape Hrefused refused w2.
  destruct (deliver_by_shape row target payload args kwargs w1 Hshape)
    as [Hrun Hsends].
  fold refused in Hrun, Hsends. fold w2 in Hrun, Hsends.
  assert (Hcall : __call__ self msg w
                  = on_exception msg (VSendable target) payload
                      (Forbidden 50007) w2).
  { rewrite (call_when_body_returns _ _ Hbody). unfold try_except.
    rewrite Hrun, Hrefused. reflexivity. }
  split.
  - intros -> w'. split.
    + rewrite Hcall. simpl.
      rewrite (send_payload_by_shape _ _ _ _ Hshape), send_by_answer.
      reflexivity.
    + subst w'. rewrite sends_answered, sends_emit, Hsends. simpl.
      rewrite <- app_assoc. reflexivity.
  - intros Hother notice w'. split.
    + rewrite Hcall. simpl.
      destruct target; [| exfalso; apply Hother; reflexivity |];
        simpl; rewrite send_by_answer; reflexivity.
    + subst w'. rewrite sends_answered, sends_emit, Hsends. simpl.
      rewrite <- app_assoc. reflexivity.
Qed.

End Permitted.

Lemma malformed_result_gets_no_reply_witness :
  __call__ (action_ending false (Ok VNone)) (alice_says "m!sample")
    (world_with [])
  = (Ok tt,
     {| trace :=
          [running_sample;
           Log "movienightbot" ERROR
             (inl "Action did not return a two-member tuple!")];
        servers := [movie_row];
        platform := [] |}).
Proof.
  apply (malformed_result_gets_no_reply
           (action_ending false (Ok VNone)) (alice_says "m!sample")
           (world_with []) movie_guild movie_row
           eq_refl eq_refl eq_refl VNone _ eq_refl).
  intros target args; discriminate.
Defined.

Lemma action_fault_is_reported_witness :
  __call__ (action_ending false (Raise ValueError)) (alice_says "m!sample")
    (world_with [])
  = (Ok tt,
     {| trace :=
          [running_sample;
           Log "movienightbot" ERROR (inr ValueError);
           Send MsgChannel [VStr error_message] []];
        servers := [movie_row];
        platform := [] |}).
Proof.
  apply (action_fault_is_reported
           (action_ending false (Raise ValueError)) (alice_says "m!sample")
           (world_with []) movie_guild movie_row
           eq_refl eq_refl eq_refl ValueError _ eq_refl).
  discriminate.
Defined.

(** A counterexample to C2 as the spec states it: the check lets the invocation
    through, the body raises [ValueError], and the platform answers the
    [send] of the generic message with [Forbidden], code 50013 (the bot
    may not write to the channel); that exception leaves [__call__]. *)
Lemma action_fault_notice_refused :
  _check_proceed (action_ending false (Raise ValueError))
    (alice_says "m!sample") (world_with [Some (Forbidden 50013)])
  = (Ok true, world_with [Some (Forbidden 50013)])
  /\ action (action_ending false (Raise ValueError)) (alice_says "m!sample")
       (started (action_ending false (Raise ValueError))
          (alice_says "m!sample") (world_with [Some (Forbidden 50013)]))
     = (Raise ValueError,
        started (action_ending false (Raise ValueError))
          (alice_says "m!sample") (world_with [Some (Forbidden 50013)]))
  /\ __call__ (action_ending false (Raise ValueError))
       (alice_says "m!sample") (world_with [Some (Forbidden 50013)])
     = (Raise (Forbidden 50013),
        {| trace :=
             [running_sample;
              Log "movienightbot" ERROR (inr ValueError);
              Send MsgChannel [VStr error_message] []];
           servers := [movie_row];
           platform := [] |}).
Proof. repeat split. Qed.

Lemma reply_is_sent_once_witness :
  __call__
    (action_ending false (Ok (VTuple [VSendable MsgChannel; VStr "hello"])))
    (alice_says "m!sample") (world_with [])
  = (Ok tt,
     {| trace := [running_sample; Send MsgChannel [VStr "hello"] []];
        servers := [movie_row];
        platform := [] |}).
Proof.
  apply (proj1 (reply_is_sent_once
                  (action_ending false
                     (Ok (VTuple [VSendable MsgChannel; VStr "hello"])))
                  (alice_says "m!sample") (world_with []) movie_guild movie_row
                  eq_refl eq_refl eq_refl MsgChannel (VStr "hello") _
                  eq_refl eq_refl) "hello" eq_refl).
Defined.

Lemma refused_dm_goes_to_channel_witness :
  __call__
    (action_ending false (Ok (VTuple [VSendable MsgAuthor; VStr "psst"])))
    (alice_says "m!sample") (world_with [Some (Forbidden 50007)])
  = (Ok tt,
     {| trace :=
          [running_sample;
           Send MsgAuthor [VStr "psst"] [];
           Send MsgChannel [VStr "psst"] []];
        servers := [movie_row];
        platform := [] |}).
Proof.
  apply (refused_dm_goes_to_channel
           (action_ending false
              (Ok (VTuple [VSendable MsgAuthor; VStr "psst"])))
           (alice_says "m!sample") (world_with [Some (Forbidden 50007)])
           movie_guild movie_row eq_refl eq_refl eq_refl
           MsgAuthor (VStr "psst") [VStr "psst"] [] _
           eq_refl eq_refl eq_refl).
  reflexivity.
Defined.

(** ** The exception of the eligibility check *)

(** In a guild without a settings row every invocation ends with an
    exception leaving [__call__]: the one of line 68 when the generic
    message is delivered, the platform's when it is not. *)
Lemma missing_row_escapes self msg w g :
  guild msg = Some g ->
  find (fun r => id r =? guild_id g) (servers w) = None ->
  let w' :=
    answered
      (emit (Send MsgChannel [VStr error_message] [])
         (emit (Log "movienightbot" ERROR (inr DoesNotExist)) w)) in
  __call__ self msg w
  = (match next_answer w with
     | Some e => Raise e
     | None => Raise DoesNotExist
     end, w').
Proof.
  intros Hg Hrow w'.
  assert (Hcheck : _check_proceed self msg w = (Raise DoesNotExist, w)).
  { unfold _check_proceed. rewrite Hg, andb_false_r.
    unfold bind, msg_guild. rewrite Hg. unfold ret at 1.
    rewrite (get_by_id_missing _ _ Hrow). reflexivity. }
  destruct (next_answer w) as [e|] eqn:Hans.
  - unfold __call__, bind at 1, try_except. rewrite Hcheck.
    unfold bind at 1, bind at 1, log_exception.
    rewrite (send_refused _ _ _ _ e) by exact Hans. reflexivity.
  - rewrite (check_exception_falls_through _ _ _ _ _ Hcheck Hans).
    unfold run_action, bind at 1, msg_guild. rewrite Hg. unfold ret at 1.
    unfold bind at 1. rewrite get_by_id_missing by exact Hrow. reflexivity.
Qed.

(** After an exception of the check the body still runs, so a body that
    raises makes the channel get the generic message a second time: here
    [alice] invokes an admin-only action and the platform answers the
    refusal with an error. *)
Lemma fault_after_check_exception :
  __call__ (action_ending true (Raise ValueError)) (alice_says "m!sample")
    (world_with [Some (Error "DiscordServerError")])
  = (Ok tt,
     {| trace :=
          [Log "root" DEBUG (inl "User alice does not have admin");
           Send MsgChannel
             [VStr "Hey now, you're not an admin on this server!"] [];
           Log "movienightbot" ERROR (inr (Error "DiscordServerError"));
           Send MsgChannel [VStr error_message] [];
           running_sample;
           Log "movienightbot" ERROR (inr ValueError);
           Send MsgChannel [VStr error_message] []];
        servers := [movie_row];
        platform := [] |}).
Proof. reflexivity. Qed.

(** C1 fails on the code. First input: the guild of the message has no
    settings row. [_check_proceed] raises [DoesNotExist]; [__call__] logs
    it and sends the generic message, then loads the row again on line 68,
    and that [DoesNotExist] leaves [__call__].  Second input: [alice], who
    is no admin, invokes the admin-only [user_vote_count] and the platform
    answers the refusal with an error; [__call__] logs it, sends the
    generic message, and then runs the body, which stores the new
    setting. *)
Theorem check_exception_does_not_deny :
  __call__ UserVoteCountAction
    (message "m!user_vote_count 4" (Some movie_guild) movie_channel host)
    world_without_row
  = (Raise DoesNotExist,
     {| trace :=
          [Log "movienightbot" ERROR (inr DoesNotExist);
           Send MsgChannel [VStr error_message] []];
        servers := [];
        platform := [] |})
  /\ __call__ UserVoteCountAction (alice_says "m!user_vote_count 4")
       (world_with [Some (Error "DiscordServerError")])
     = (Ok tt,
        {| trace :=
             [Log "root" DEBUG (inl "User alice does not have admin");
              Send MsgChannel
                [VStr "Hey now, you're not an admin on this server!"] [];
              Log "movienightbot" ERROR (inr (Error "DiscordServerError"));
              Send MsgChannel [VStr error_message] [];
              Log "movienightbot" INFO
                (inl "Running action user_vote_count on Cinema from user alice");
              Send MsgChannel
                [VStr "Number of votes per user updated to 4"] []];
           servers := [set_num_votes_per_user 4 movie_row];
           platform := [] |}).
Proof. split; vm_compute; reflexivity. Qed.

(** ** [user_vote_count] *)

Lemma get_message_data_is_str msg :
  exists s, get_message_data msg 1 = VStr s.
Proof.
  unfold get_message_data. simpl.
  destruct (map _ _); eexists; reflexivity.
Qed.

Lemma set_servers_same w : set_servers (servers w) w = w.
Proof. destruct w; reflexivity. Qed.

(** Looking a guild up after [update row']: the row found before, or
    [row'] in its place when the ids agree. *)
Lemma find_after_update row' gid rows :
  find (fun r => id r =? gid)
    (map (fun old => if id old =? id row' then row' else old) rows)
  = option_map (fun old => if id old =? id row' then row' else old)
      (find (fun r => id r =? gid) rows).
Proof.
  induction rows as [|x rows IH]; simpl; [reflexivity|].
  destruct (id x =? id row') eqn:Hx.
  - pose proof (proj1 (Z.eqb_eq _ _) Hx) as Hid.
    replace (id row' =? gid) with (id x =? gid) by (rewrite Hid; reflexivity).
    destruct (id x =? gid); [simpl; rewrite Hx; reflexivity | exact IH].
  - destruct (id x =? gid); [simpl; rewrite Hx; reflexivity | exact IH].
Qed.

(** The three ways [user_vote_count_action] ends once the text gives an
    integer [n]. *)
Lemma user_vote_count_rejects_below_one msg w n :
  py_int (get_message_data msg 1) w = (Ok n, w) ->
  n < 1 ->
  user_vote_count_action msg w
  = (Ok (VTuple [VSendable MsgChannel;
                 VStr "Failed: Number of votes per user must be greater than zero."]),
     w).
Proof.
  intros Hn Hlt. unfold user_vote_count_action, bind at 1. rewrite Hn.
  unfold bind at 1. simpl. apply Z.ltb_lt in Hlt. rewrite Hlt. reflexivity.
Qed.

Lemma user_vote_count_in_transaction msg w n g row :
  py_int (get_message_data msg 1) w = (Ok n, w) ->
  1 <= n ->
  guild msg = Some g ->
  find (fun r => id r =? guild_id g) (servers w) = Some row ->
  user_vote_count_action msg w
  = if n <? num_votes_per_user row then
      (Ok (VTuple [VSendable MsgChannel;
                   VStr ("Failed to update: Number of votes per user must be >= "
                         ++ PyStr.of_int (num_votes_per_user row))]),
       w)
    else
      (Ok (VTuple [VSendable MsgChannel;
                   VStr ("Number of votes per user updated to "
                         ++ PyStr.of_int n)]),
       set_servers
         (map (fun old =>
                 if id old =? id row then set_num_votes_per_user n row else old)
            (servers w)) w).
Proof.
  intros Hn Hge Hg Hrow. unfold user_vote_count_action, bind at 1. rewrite Hn.
  unfold bind at 1. simpl. apply Z.ltb_ge in Hge. rewrite Hge.
  unfold transaction, bind at 1, msg_guild. rewrite Hg. unfold ret at 1.
  unfold bind at 1. rewrite (get_by_id_found _ _ _ Hrow).
  destruct (n <? num_votes_per_user row); reflexivity.
Qed.

(** Whatever the message, the action leaves the events and the platform
    alone and either keeps the table or stores an accepted value. *)
Lemma user_vote_count_cases msg w :
  snd (user_vote_count_action msg w) = w
  \/ exists n g row,
       py_int (get_message_data msg 1) w = (Ok n, w)
       /\ guild msg = Some g
       /\ find (fun r => id r =? guild_id g) (servers w) = Some row
       /\ 1 <= n
       /\ num_votes_per_user row <= n
       /\ snd (user_vote_count_action msg w)
          = set_servers
              (map (fun old =>
                      if id old =? id row then set_num_votes_per_user n row
                      else old)
                 (servers w)) w.
Proof.
  destruct (get_message_data_is_str msg) as [s Hs].
  destruct (PyStr.to_int s) as [n|] eqn:Hparse.
  - assert (Hn : py_int (get_message_data msg 1) w = (Ok n, w)).
    { rewrite Hs. simpl. rewrite Hparse. reflexivity. }
    destruct (Z.lt_ge_cases n 1) as [Hlt | Hge].
    + left. rewrite (user_vote_count_rejects_below_one _ _ _ Hn Hlt).
      reflexivity.
    + destruct (guild msg) as [g|] eqn:Hg.
      * destruct (find (fun r => id r =? guild_id g) (servers w))
          as [row|] eqn:Hrow.
        -- rewrite (user_vote_count_in_transaction _ _ _ _ _ Hn Hge Hg Hrow).
           destruct (n <? num_votes_per_user row) eqn:Hcmp.
           ++ left; reflexivity.
           ++ right. exists n, g, row. apply Z.ltb_ge in Hcmp.
              repeat split; assumption.
        -- left. unfold user_vote_count_action, bind at 1. rewrite Hn.
           unfold bind at 1. simpl. apply Z.ltb_ge in Hge. rewrite Hge.
           unfold transaction, bind at 1, msg_guild. rewrite Hg.
           unfold ret at 1. unfold bind at 1.
           rewrite (get_by_id_missing _ _ Hrow). simpl.
           apply set_servers_same.
      * left. unfold user_vote_count_action, bind at 1. rewrite Hn.
        unfold bind at 1. simpl. apply Z.ltb_ge in Hge. rewrite Hge.
        unfold transaction, bind at 1, msg_guild. rewrite Hg. simpl.
        apply set_servers_same.
  - left. unfold user_vote_count_action, bind at 1. rewrite Hs. simpl.
    rewrite Hparse. reflexivity.
Qed.

(** C10. [user_vote_count_action] never lowers a stored
    [num_votes_per_user]: the setting [get_by_id] finds for any guild is,
    after the action, at least what it was.  The table changes only when
    the text gives an integer that is at least 1 and at least the stored
    value of the guild, which it then replaces.  A requested value below 1
    or below the stored value is answered with a payload for the channel
    that starts with "Failed", and the world stays as it was. *)
Theorem user_vote_count_never_decreases msg w :
  (forall gid old,
      stored_votes gid w = Some old ->
      exists new,
        stored_votes gid (snd (user_vote_count_action msg w)) = Some new
        /\ old <= new)
  /\ (servers (snd (user_vote_count_action msg w)) <> servers w ->
      exists n g row,
        py_int (get_message_data msg 1) w = (Ok n, w)
        /\ guild msg = Some g
        /\ find (fun r => id r =? guild_id g) (servers w) = Some row
        /\ 1 <= n
        /\ num_votes_per_user row <= n
        /\ stored_votes (guild_id g) (snd (user_vote_count_action msg w))
           = Some n)
  /\ (forall n,
         py_int (get_message_data msg 1) w = (Ok n, w) ->
         (n < 1 ->
          user_vote_count_action msg w
          = (Ok (VTuple
                   [VSendable MsgChannel;
                    VStr "Failed: Number of votes per user must be greater than zero."]),
             w))
         /\ (forall g row,
                guild msg = Some g ->
                find (fun r => id r =? guild_id g) (servers w) = Some row ->
                1 <= n ->
                n < num_votes_per_user row ->
                user_vote_count_action msg w
                = (Ok (VTuple
                         [VSendable MsgChannel;
                          VStr ("Failed to update: Number of votes per user must be >= "
                                ++ PyStr.of_int (num_votes_per_user row))]),
                   w))).
Proof.
  split; [|split].
  - intros gid old Hold.
    destruct (user_vote_count_cases msg w)
      as [Hsame | (n & g & row & _ & _ & Hrow & _ & Hle & Hw')].
    + rewrite Hsame. exists old. split; [exact Hold | lia].
    + rewrite Hw'. unfold stored_votes in *.
      change (servers (set_servers ?rows w)) with rows.
      rewrite (find_after_update (set_num_votes_per_user n row)).
      destruct (find (fun r => id r =? gid) (servers w)) as [x|] eqn:Hx;
        [|discriminate].
      simpl in Hold. inversion Hold; subst old. simpl.
      destruct (id x =? id row) eqn:Hid.
      * exists n. split; [reflexivity|].
        apply Z.eqb_eq in Hid.
        destruct (find_some _ _ Hx) as [_ Hxg].
        destruct (find_some _ _ Hrow) as [_ Hrg].
        apply Z.eqb_eq in Hxg, Hrg.
        assert (Heq : gid = guild_id g) by lia.
        rewrite Heq, Hrow in Hx. inversion Hx; subst x. exact Hle.
      * exists (num_votes_per_user x). split; [reflexivity | lia].
  - intros Hchanged.
    destruct (user_vote_count_cases msg w)
      as [Hsame | (n & g & row & Hn & Hg & Hrow & Hge & Hle & Hw')].
    + exfalso. apply Hchanged. rewrite Hsame. reflexivity.
    + exists n, g, row. repeat split; try assumption.
      rewrite Hw'. unfold stored_votes.
      change (servers (set_servers ?rows w)) with rows.
      rewrite (find_after_update (set_num_votes_per_user n row)), Hrow.
      simpl. rewrite Z.eqb_refl. reflexivity.
  - intros n Hn. split.
    + intros Hlt. exact (user_vote_count_rejects_below_one _ _ _ Hn Hlt).
    + intros g row Hg Hrow Hge Hlt.
      rewrite (user_vote_count_in_transaction _ _ _ _ _ Hn Hge Hg Hrow).
      apply Z.ltb_lt in Hlt. rewrite Hlt. reflexivity.
Qed.

Lemma user_vote_count_never_decreases_witness :
  (exists new,
      stored_votes 7
        (snd (user_vote_count_action
                (message "m!user_vote_count 5" (Some movie_guild)
                   movie_channel host) (world_with [])))
      = Some new
      /\ 3 <= new)
  /\ user_vote_count_action
       (message "m!user_vote_count 2" (Some movie_guild) movie_channel host)
       (world_with [])
     = (Ok (VTuple
              [VSendable MsgChannel;
               VStr "Failed to update: Number of votes per user must be >= 3"]),
        world_with []).
Proof.
  split.
  - apply (proj1 (user_vote_count_never_decreases
                    (message "m!user_vote_count 5" (Some movie_guild)
                       movie_channel host) (world_with [])) 7 3).
    reflexivity.
  - apply (proj2 (proj2 (proj2 (user_vote_count_never_decreases
                    (message "m!user_vote_count 2" (Some movie_guild)
                       movie_channel host) (world_with []))) 2 eq_refl)
             movie_guild movie_row eq_refl eq_refl); simpl; lia.
Defined.

(** ** The string primitives on small inputs *)

Example strip_drops_outer_space : PyStr.strip "  m!x  a " = "m!x  a".
Proof. reflexivity. Qed.

Example split_respects_maxsplit :
  PyStr.split "m!suggest   Some   Movie" " " 1
  = ["m!suggest"; "  Some   Movie"]
  /\ PyStr.split "a  b" " " (-1) = ["a"; ""; "b"]
  /\ PyStr.split "a b" " " 0 = ["a b"].
Proof. repeat split. Qed.

Example get_message_data_two_parts :
  get_message_data (alice_says "m!suggest Some  Movie Name") 2
  = VTuple [VStr "Some"; VStr "Movie Name"].
Proof. reflexivity. Qed.

Example to_int_reads_decimal_literals :
  PyStr.to_int " -1_000 " = Some (-1000)
  /\ PyStr.to_int "1__0" = None
  /\ PyStr.to_int "" = None
  /\ PyStr.of_int (-12) = "-12"
  /\ PyStr.of_int 0 = "0".
Proof. repeat split. Qed.

(** * Further properties of the dispatch *)

(** ** Who gets past [_check_proceed] *)

(** [_check_proceed] answers [True] exactly for a guild message whose
    guild has a settings row, sent in the configured channel, when the
    action is not admin-only or the author has the administrator flag or
    the configured admin role; and when it answers [True] it has left the
    world as it was. *)
Theorem check_proceed_passes_iff self msg w :
  (forall w', _check_proceed self msg w = (Ok true, w') -> w' = w)
  /\ (_check_proceed self msg w = (Ok true, w)
      <-> exists g row,
            guild msg = Some g
            /\ find (fun r => id r =? guild_id g) (servers w) = Some row
            /\ channel_id (msg_channel msg) = channel row
            /\ (admin self = false
                \/ administrator (author msg) = true
                \/ mem_string (admin_role row) (roles (author msg)) = true)).
Proof.
  split; [|split].
  - intros w' H. exact (proj1 (check_proceed_true _ _ _ _ H)).
  - intros H.
    destruct (check_proceed_true _ _ _ _ H) as [_ (g & row & Hg & Hrow)].
    exists g, row. split; [exact Hg|]. split; [exact Hrow|].
    revert H. unfold _check_proceed. rewrite Hg, andb_false_r.
    unfold bind at 1, msg_guild. rewrite Hg. unfold ret at 1.
    unfold bind at 1. rewrite (get_by_id_found _ _ _ Hrow).
    destruct (channel_id (msg_channel msg) =? channel row) eqn:Hch; simpl.
    + apply Z.eqb_eq in Hch. intros H. split; [exact Hch|].
      destruct (administrator (author msg)); [right; left; reflexivity|].
      destruct (admin self); [|left; reflexivity].
      destruct (mem_string _ _); [right; right; reflexivity|].
      simpl in H. unfold bind, log in H. rewrite send_by_answer in H.
      destruct (next_answer _); simpl in H; discriminate.
    + unfold bind, log, ret. discriminate.
  - intros (g & row & Hg & Hrow & Hch & Hpass).
    unfold _check_proceed. rewrite Hg, andb_false_r.
    unfold bind at 1, msg_guild. rewrite Hg. unfold ret at 1.
    unfold bind at 1. rewrite (get_by_id_found _ _ _ Hrow).
    rewrite Hch, Z.eqb_refl. simpl.
    destruct Hpass as [Hplain | [Hflag | Hrole]].
    + rewrite Hplain. simpl. rewrite andb_false_r. reflexivity.
    + rewrite Hflag. reflexivity.
    + rewrite Hrole, andb_false_r, andb_false_r. reflexivity.
Qed.

(** ** Direct messages *)

(** An action that is not guild-only never runs from a direct message:
    the check fails on [msg.guild.id], [__call__] logs that and notifies
    the channel, and line 68 fails the same way, so an [AttributeError]
    (or the exception the platform answers the notice with) leaves
    [__call__], whatever the body of the action is. *)
Theorem dm_never_reaches_body self msg w :
  guild msg = None ->
  guild_only self = false ->
  __call__ self msg w
  = (Raise match next_answer w with
           | Some e => e
           | None => AttributeError
           end,
     answered
       (emit (Send MsgChannel [VStr error_message] [])
          (emit (Log "movienightbot" ERROR (inr AttributeError)) w))).
Proof.
  intros Hdm Hany.
  assert (Hcheck : _check_proceed self msg w = (Raise AttributeError, w)).
  { unfold _check_proceed. rewrite Hany. simpl.
    unfold bind, msg_guild. rewrite Hdm. reflexivity. }
  destruct (next_answer w) as [e|] eqn:Hans.
  - unfold __call__, bind at 1, try_except. rewrite Hcheck.
    unfold bind at 1, bind at 1, log_exception.
    rewrite (send_refused _ _ _ _ e) by exact Hans. reflexivity.
  - rewrite (check_exception_falls_through _ _ _ _ _ Hcheck Hans).
    unfold run_action, bind at 1, msg_guild. rewrite Hdm. reflexivity.
Qed.

Lemma dm_never_reaches_body_witness :
  __call__
    {| action_name := "about"; admin := false; guild_only := false;
       action := fun _ => ret (VTuple [VSendable MsgAuthor; VStr "hi"]) |}
    (message "m!about" None dm_channel alice) (world_with [])
  = (Raise AttributeError,
     {| trace :=
          [Log "movienightbot" ERROR (inr AttributeError);
           Send MsgChannel [VStr error_message] []];
        servers := [movie_row];
        platform := [] |}).
Proof.
  apply (dm_never_reaches_body
           {| action_name := "about"; admin := false; guild_only := false;
              action := fun _ => ret (VTuple [VSendable MsgAuthor; VStr "hi"]) |}
           (message "m!about" None dm_channel alice) (world_with []));
    reflexivity.
Defined.

(** ** Replies the three shapes do not cover *)

Section Replies.

Variables (self : Action) (msg : Message) (w : World).
Variables (g : Guild) (row : ServerRow).
Hypothesis Hguild : guild msg = Some g.
Hypothesis Hrow : find (fun r => id r =? guild_id g) (servers w) = Some row.
Hypothesis Hcheck : _check_proceed self msg w = (Ok true, w).

(** The body returns a pair whose payload is neither a string, a tuple
    nor a dict: [__call__] returns without a [send] call and without a log
    record, the world being the one the body left. *)
Theorem unshaped_payload_is_dropped target payload w1 :
  action self msg (started self msg w) = (Ok (VTuple [target; payload]), w1) ->
  spec_send_call payload = None ->
  __call__ self msg w = (Ok tt, w1).
Proof.
  intros Hbody Hshape.
  rewrite (call_when_body_returns _ _ _ _ _ Hguild Hrow Hcheck _ _ Hbody).
  unfold try_except, deliver, bind.
  destruct payload; try discriminate Hshape; reflexivity.
Qed.

(** The body returns a pair whose target has no [send] method (for
    instance [None]) and whose payload has one of the three shapes: the
    [AttributeError] is logged and the channel gets the generic message. *)
Theorem unsendable_target_is_reported target payload args kwargs w1 :
  action self msg (started self msg w) = (Ok (VTuple [target; payload]), w1) ->
  (forall t, target <> VSendable t) ->
  spec_send_call payload = Some (args, kwargs) ->
  let w2 := snd (schedule_cleanup row payload w1) in
  let notice := Send MsgChannel [VStr error_message] [] in
  let w' :=
    answered
      (emit notice (emit (Log "movienightbot" ERROR (inr AttributeError)) w2)) in
  __call__ self msg w = (send_result (next_answer w1), w')
  /\ sends w' = sends w1 ++ [notice].
Proof.
  intros Hbody Htarget Hshape w2 notice w'. subst w2 w'.
  destruct (schedule_cleanup_safe row payload w1) as (w2 & Hrun & Hs & Hn & _).
  rewrite Hrun. simpl. split.
  - rewrite (call_when_body_returns _ _ _ _ _ Hguild Hrow Hcheck _ _ Hbody).
    assert (Hsend : send_payload target payload w2 = (Raise AttributeError, w2)).
    { destruct target; try (exfalso; exact (Htarget _ eq_refl));
        destruct payload; try discriminate Hshape; reflexivity. }
    unfold try_except, deliver, bind. rewrite Hrun, Hsend. simpl.
    unfold bind, log_exception. rewrite send_by_answer, next_answer_emit, Hn.
    reflexivity.
  - rewrite sends_answered, !sends_emit, Hs. simpl. rewrite app_nil_r.
    reflexivity.
Qed.

(** The platform answers the [send] of the reply with an exception other
    than [Forbidden] with code 50007: the exception is logged and the
    channel gets the generic message, after the one [send] on the
    target. *)
Theorem failed_reply_is_reported target payload args kwargs w1 e :
  action self msg (started self msg w)
  = (Ok (VTuple [VSendable target; payload]), w1) ->
  spec_send_call payload = Some (args, kwargs) ->
  next_answer w1 = Some e ->
  e <> Forbidden 50007 ->
  let reply := Send target args kwargs in
  let notice := Send MsgChannel [VStr error_message] [] in
  let w2 := answered (emit reply (snd (schedule_cleanup row payload w1))) in
  let w' := answered (emit notice (emit (Log "movienightbot" ERROR (inr e)) w2)) in
  __call__ self msg w = (send_result (next_answer w2), w')
  /\ sends w' = sends w1 ++ [reply; notice].
Proof.
  intros Hbody Hshape Hans Hcode reply notice w2 w'.
  destruct (deliver_by_shape row target payload args kwargs w1 Hshape)
    as [Hrun Hsends].
  fold reply in Hrun, Hsends. fold w2 in Hrun, Hsends. split.
  - rewrite (call_when_body_returns _ _ _ _ _ Hguild Hrow Hcheck _ _ Hbody).
    unfold try_except. rewrite Hrun, Hans. simpl.
    assert (Hgeneric :
              (log_exception "movienightbot" e ;;
               send MsgChannel [VStr error_message] []) w2
              = (send_result (next_answer w2), w')).
    { unfold bind, log_exception. rewrite send_by_answer, next_answer_emit.
      reflexivity. }
    unfold on_exception. destruct e as [code| | | | |name]; try exact Hgeneric.
    destruct (code =? 50007) eqn:Hc; [|exact Hgeneric].
    apply Z.eqb_eq in Hc. subst code. exfalso; apply Hcode; reflexivity.
  - subst w'. rewrite sends_answered, !sends_emit, Hsends. simpl.
    rewrite app_nil_r, <- app_assoc. reflexivity.
Qed.

(** The body itself raises [Forbidden] with code 50007 (it tried to
    message the author): no error is logged, and the channel is told that
    the author cannot be messaged. *)
Theorem refusal_inside_body_is_announced w1 :
  action self msg (started self msg w) = (Raise (Forbidden 50007), w1) ->
  let notice :=
    Send MsgChannel
      [VStr ("I can't DM you " ++ author_name (author msg) ++ "!")] [] in
  __call__ self msg w
  = (send_result (next_answer w1), answered (emit notice w1)).
Proof.
  intros Hbody notice.
  rewrite (call_when_body_raises _ _ _ _ _ Hguild Hrow Hcheck _ _ Hbody).
  simpl. rewrite send_by_answer. reflexivity.
Qed.

(** A dict payload with an ["also_delete"] entry, the reply being
    delivered: when the timeout of the server (as loaded before the body
    ran) is positive, the entry is handed to [cleanup_messages] with that
    timeout, once and before the reply; otherwise nothing is scheduled.
    Either way the whole dict, the entry included, goes to [send] as
    keyword arguments. *)
Theorem also_delete_is_scheduled target items also_delete w1 :
  action self msg (started self msg w)
  = (Ok (VTuple [VSendable target; VDict items]), w1) ->
  lookup_key "also_delete" items = Some also_delete ->
  next_answer w1 = None ->
  (0 < message_timeout row ->
   __call__ self msg w
   = (Ok tt,
      answered
        (emit (Send target [] items)
           (emit (Cleanup also_delete (message_timeout row)) w1))))
  /\ (message_timeout row <= 0 ->
      __call__ self msg w = (Ok tt, answered (emit (Send target [] items) w1))).
Proof.
  intros Hbody Hkey Hacc.
  rewrite (call_when_body_returns _ _ _ _ _ Hguild Hrow Hcheck _ _ Hbody).
  unfold try_except, deliver, bind, schedule_cleanup. rewrite Hkey. split.
  - intros Hpos. apply Z.gtb_lt in Hpos. rewrite Hpos.
    unfold cleanup_messages. simpl. rewrite send_by_answer.
    rewrite next_answer_emit, Hacc. reflexivity.
  - intros Hoff.
    assert (Hgt : (message_timeout row >? 0) = false).
    { rewrite Z.gtb_ltb. apply Z.ltb_ge. exact Hoff. }
    rewrite Hgt. simpl. rewrite send_by_answer, Hacc. reflexivity.
Qed.

End Replies.

(** ** The settings table is read, not written *)

Lemma keeps_ret {A} (a : A) : keeps_servers (ret a).
Proof. intros w; reflexivity. Qed.

Lemma keeps_raise {A} e : keeps_servers (@raise A e).
Proof. intros w; reflexivity. Qed.

Lemma keeps_log name lvl text : keeps_servers (log name lvl text).
Proof. intros w; reflexivity. Qed.

Lemma keeps_log_exception name e : keeps_servers (log_exception name e).
Proof. intros w; reflexivity. Qed.

Lemma keeps_send target args kwargs : keeps_servers (send target args kwargs).
Proof. intros w; unfold send; destruct (next_answer w); reflexivity. Qed.

Lemma keeps_cleanup_messages v delay : keeps_servers (cleanup_messages v delay).
Proof. intros w; reflexivity. Qed.

Lemma keeps_get_by_id gid : keeps_servers (get_by_id gid).
Proof. intros w; unfold get_by_id; destruct (find _ _); reflexivity. Qed.

Lemma keeps_msg_guild msg : keeps_servers (msg_guild msg).
Proof. intros w; unfold msg_guild; destruct (guild msg); reflexivity. Qed.

Lemma keeps_bind {A B} (m : M A) (k : A -> M B) :
  keeps_servers m -> (forall a, keeps_servers (k a)) -> keeps_servers (bind m k).
Proof.
  intros Hm Hk w. unfold bind. specialize (Hm w).
  destruct (m w) as [[a|e] w1]; simpl in *; [|exact Hm].
  rewrite (Hk a w1). exact Hm.
Qed.

Lemma keeps_try_except {A} (body : M A) (handler : Exn -> M A) :
  keeps_servers body -> (forall e, keeps_servers (handler e)) ->
  keeps_servers (try_except body handler).
Proof.
  intros Hm Hh w. unfold try_except. specialize (Hm w).
  destruct (body w) as [[a|e] w1]; simpl in *; [exact Hm|].
  rewrite (Hh e w1). exact Hm.
Qed.

Lemma keeps_attempt {A} (body : M A) :
  keeps_servers body -> keeps_servers (attempt body).
Proof.
  intros Hm w. unfold attempt. specialize (Hm w).
  destruct (body w) as [[a|e] w1]; exact Hm.
Qed.

(** Splits a goal [keeps_servers m] along the structure of [m]. *)
Ltac frame :=
  repeat
    (first
       [ apply keeps_ret | apply keeps_raise | apply keeps_log
       | apply keeps_log_exception | apply keeps_send
       | apply keeps_cleanup_messages | apply keeps_get_by_id
       | apply keeps_msg_guild | assumption
       | apply keeps_bind; [|intros ?]
       | apply keeps_try_except; [|intros ?]
       | apply keeps_attempt
       | match goal with
         | |- keeps_servers (if ?b then _ else _) => destruct b
         | |- keeps_servers (match ?x with _ => _ end) => destruct x
         end ]).

Lemma keeps_check_proceed self msg : keeps_servers (_check_proceed self msg).
Proof. unfold _check_proceed. frame. Qed.

Lemma keeps_send_payload target payload :
  keeps_servers (send_payload target payload).
Proof. unfold send_payload, send_to. frame. Qed.

Lemma keeps_on_exception msg target payload e :
  keeps_servers (on_exception msg target payload e).
Proof.
  unfold on_exception.
  destruct e; frame; apply keeps_send_payload.
Qed.

(** [__call__] writes to the settings table only through the body of the
    action: when the body leaves the table alone, so does the whole
    dispatch, however the check, the body and the platform behave. *)
Theorem dispatch_keeps_servers self msg :
  keeps_servers (action self msg) ->
  keeps_servers (__call__ self msg).
Proof.
  intros Hbody. unfold __call__.
  apply keeps_bind.
  - apply keeps_try_except; [apply keeps_check_proceed | intros e; frame].
  - intros proceed. destruct (negb proceed); [apply keeps_ret|].
    unfold run_action.
    apply keeps_bind; [apply keeps_msg_guild | intros g].
    apply keeps_bind; [apply keeps_get_by_id | intros row].
    apply keeps_bind; [apply keeps_log | intros _].
    apply keeps_bind; [apply keeps_attempt; exact Hbody | intros rt].
    destruct rt as [e | rt]; [apply keeps_on_exception|].
    destruct rt as [| | | |items| | | |]; try apply keeps_log.
    destruct items as [|target [|args [|extra more]]]; try apply keeps_log.
    apply keeps_try_except; [|intros e; apply keeps_on_exception].
    unfold deliver, schedule_cleanup.
    apply keeps_bind; [|intros _; apply keeps_send_payload].
    frame.
Qed.

Lemma dispatch_keeps_servers_witness :
  servers
    (snd (__call__ (action_ending true (Raise ValueError))
            (alice_says "m!sample")
            (world_with [Some (Error "DiscordServerError")])))
  = [movie_row].
Proof.
  apply (dispatch_keeps_servers (action_ending true (Raise ValueError))
           (alice_says "m!sample")).
  intros w; reflexivity.
Defined.

Lemma unshaped_payload_is_dropped_witness :
  __call__ (action_ending false (Ok (VTuple [VSendable MsgChannel; VNone])))
    (alice_says "m!sample") (world_with [])
  = (Ok tt,
     {| trace := [running_sample]; servers := [movie_row]; platform := [] |}).
Proof.
  apply (unshaped_payload_is_dropped
           (action_ending false (Ok (VTuple [VSendable MsgChannel; VNone])))
           (alice_says "m!sample") (world_with []) movie_guild movie_row
           eq_refl eq_refl eq_refl (VSendable MsgChannel) VNone _
           eq_refl eq_refl).
Defined.

Lemma unsendable_target_is_reported_witness :
  __call__ (action_ending false (Ok (VTuple [VNone; VStr "hi"])))
    (alice_says "m!sample") (world_with [])
  = (Ok tt,
     {| trace :=
          [running_sample;
           Log "movienightbot" ERROR (inr AttributeError);
           Send MsgChannel [VStr error_message] []];
        servers := [movie_row];
        platform := [] |}).
Proof.
  apply (unsendable_target_is_reported
           (action_ending false (Ok (VTuple [VNone; VStr "hi"])))
           (alice_says "m!sample") (world_with []) movie_guild movie_row
           eq_refl eq_refl eq_refl VNone (VStr "hi") [VStr "hi"] [] _ eq_refl).
  - intros t; discriminate.
  - reflexivity.
Defined.

Lemma failed_reply_is_reported_witness :
  __call__
    (action_ending false (Ok (VTuple [VSendable MsgChannel; VStr "hi"])))
    (alice_says "m!sample") (world_with [Some (Forbidden 50013)])
  = (Ok tt,
     {| trace :=
          [running_sample;
           Send MsgChannel [VStr "hi"] [];
           Log "movienightbot" ERROR (inr (Forbidden 50013));
           Send MsgChannel [VStr error_message] []];
        servers := [movie_row];
        platform := [] |}).
Proof.
  apply (failed_reply_is_reported
           (action_ending false
              (Ok (VTuple [VSendable MsgChannel; VStr "hi"])))
           (alice_says "m!sample") (world_with [Some (Forbidden 50013)])
           movie_guild movie_row eq_refl eq_refl eq_refl
           MsgChannel (VStr "hi") [VStr "hi"] [] _ (Forbidden 50013)
           eq_refl eq_refl eq_refl).
  discriminate.
Defined.

Lemma refusal_inside_body_is_announced_witness :
  __call__ (action_ending false (Raise (Forbidden 50007)))
    (alice_says "m!sample") (world_with [])
  = (Ok tt,
     {| trace :=
          [running_sample; Send MsgChannel [VStr "I can't DM you alice!"] []];
        servers := [movie_row];
        platform := [] |}).
Proof.
  apply (refusal_inside_body_is_announced
           (action_ending false (Raise (Forbidden 50007)))
           (alice_says "m!sample") (world_with []) movie_guild movie_row
           eq_refl eq_refl eq_refl _ eq_refl).
Defined.

Lemma also_delete_is_scheduled_witness :
  __call__
    (action_ending false
       (Ok (VTuple [VSendable MsgChannel;
                    VDict [("content", VStr "done");
                           ("also_delete", VList [VObject 3])]])))
    (alice_says "m!sample") (world_with [])
  = (Ok tt,
     {| trace :=
          [running_sample;
           Cleanup (VList [VObject 3]) 10;
           Send MsgChannel []
             [("content", VStr "done"); ("also_delete", VList [VObject 3])]];
        servers := [movie_row];
        platform := [] |}).
Proof.
  apply (proj1 (also_delete_is_scheduled
                  (action_ending false
                     (Ok (VTuple [VSendable MsgChannel;
                                  VDict [("content", VStr "done");
                                         ("also_delete", VList [VObject 3])]])))
                  (alice_says "m!sample") (world_with []) movie_guild movie_row
                  eq_refl eq_refl eq_refl MsgChannel _ (VList [VObject 3]) _
                  eq_refl eq_refl eq_refl)).
  simpl; lia.
Defined.

Lemma check_proceed_passes_iff_witness :
  _check_proceed (action_ending false (Ok VNone)) (alice_says "m!sample")
    (world_with [])
  = (Ok true, world_with []).
Proof.
  apply (proj2 (proj2 (check_proceed_passes_iff
                         (action_ending false (Ok VNone))
                         (alice_says "m!sample") (world_with [])))).
  exists movie_guild, movie_row.
  split; [reflexivity|]. split; [reflexivity|]. split; [reflexivity|].
  left; reflexivity.
Defined.

(** * Further properties of [get_message_data] *)

Lemma split_on_not_empty sep limit s : PyStr.split_on sep limit s <> [].
Proof.
  destruct s as [|c rest]; simpl; [discriminate|].
  destruct (Ascii.eqb c sep); [destruct limit as [[|k]|]|];
    try discriminate;
    destruct (PyStr.split_on _ _ rest); discriminate.
Qed.

Lemma cons_first_length c fields :
  fields <> [] -> List.length (PyStr.cons_first c fields) = List.length fields.
Proof. destruct fields; [intros H; contradiction | reflexivity]. Qed.

(** [split] with a bound of [k] splits gives at most [k + 1] fields. *)
Lemma split_on_length sep k s :
  (List.length (PyStr.split_on sep (Some k) s) <= S k)%nat.
Proof.
  revert k. induction s as [|c rest IH]; intros k; simpl; [lia|].
  destruct (Ascii.eqb c sep).
  - destruct k as [|k].
    + rewrite cons_first_length by apply split_on_not_empty. apply IH.
    + simpl. specialize (IH k). lia.
  - rewrite cons_first_length by apply split_on_not_empty. apply IH.
Qed.

Lemma ws_fields_not_empty s : PyStr.ws_fields s <> [].
Proof.
  destruct s as [|c rest]; simpl; [discriminate|].
  destruct (PyStr.isspace c); [discriminate|].
  destruct (PyStr.ws_fields rest); discriminate.
Qed.

(** The fields between white space hold no white space. *)
Lemma ws_fields_clean s :
  forallb (fun f => negb (has_whitespace f)) (PyStr.ws_fields s) = true.
Proof.
  induction s as [|c rest IH]; simpl; [reflexivity|].
  destruct (PyStr.isspace c) eqn:Hc; simpl; [exact IH|].
  destruct (PyStr.ws_fields rest) as [|f fs]; simpl in *.
  - rewrite Hc. reflexivity.
  - rewrite Hc. exact IH.
Qed.

Lemma split_ws_words s : forallb is_word (PyStr.split_ws s) = true.
Proof.
  unfold PyStr.split_ws. pose proof (ws_fields_clean s) as H.
  induction (PyStr.ws_fields s) as [|f fs IH]; simpl in *; [reflexivity|].
  apply andb_true_iff in H as [Hf Hfs].
  destruct (PyStr.is_empty f) eqn:He; simpl; [exact (IH Hfs)|].
  unfold is_word at 1. rewrite He, Hf. simpl. exact (IH Hfs).
Qed.

Lemma sanitized_fields_tidy raw :
  Forall tidy (map (fun s => PyStr.join " " (PyStr.split_ws s)) raw).
Proof.
  induction raw as [|s raw IH]; simpl; constructor; [|exact IH].
  exists (PyStr.split_ws s). split; [reflexivity | apply split_ws_words].
Qed.

(** Every field [get_message_data] returns is tidy: words with single
    spaces between them, no white space at either end; this holds for the
    string returned for one part and for each member of the tuple returned
    otherwise. *)
Theorem get_message_data_is_tidy msg n :
  (n = 1 -> exists d, get_message_data msg n = VStr d /\ tidy d)
  /\ (n <> 1 ->
      exists fields,
        get_message_data msg n = VTuple (map VStr fields)
        /\ Forall tidy fields).
Proof.
  pose proof sanitized_fields_tidy as Htidy.
  unfold get_message_data. split.
  - intros ->. simpl.
    specialize (Htidy (tl (PyStr.split (PyStr.strip (content msg)) " " 1))).
    destruct (map _ _) as [|d ds].
    + exists "". split; [reflexivity|]. exists []. split; reflexivity.
    + exists d. split; [reflexivity|]. inversion Htidy; assumption.
  - intros Hn. apply Z.eqb_neq in Hn. rewrite Hn.
    eexists. split; [reflexivity | apply Htidy].
Qed.

(** With a bound [n >= 0] other than 1 the tuple has at most [n]
    members: the first field, the command, is dropped, and the rest of the
    text stays whole in the last member. *)
Theorem get_message_data_count msg n :
  0 <= n ->
  n <> 1 ->
  exists fields,
    get_message_data msg n = VTuple (map VStr fields)
    /\ Z.of_nat (List.length fields) <= n.
Proof.
  intros Hpos Hn. unfold get_message_data, PyStr.split.
  apply Z.eqb_neq in Hn. rewrite Hn.
  apply Z.ltb_ge in Hpos. rewrite Hpos.
  eexists. split; [reflexivity|]. rewrite length_map.
  pose proof (split_on_length " " (Z.to_nat n) (PyStr.strip (content msg))) as H.
  pose proof (split_on_not_empty " " (Some (Z.to_nat n))
                (PyStr.strip (content msg))) as Hne.
  destruct (PyStr.split_on _ _ _) as [|cmd rest]; [contradiction|].
  simpl in *. apply Z.ltb_ge in Hpos. lia.
Qed.

(** A text that holds the command alone gives the empty tuple when more
    than one part, or none, is asked for. *)
Theorem get_message_data_no_data msg n :
  PyStr.contains " " (PyStr.strip (content msg)) = false ->
  n <> 1 ->
  get_message_data msg n = VTuple [].
Proof.
  intros H Hn. unfold get_message_data, PyStr.split.
  rewrite (split_on_without_separator _ _ _ H).
  apply Z.eqb_neq in Hn. rewrite Hn. reflexivity.
Qed.

Lemma ws_fields_of_word w :
  has_whitespace w = false -> PyStr.ws_fields w = [w].
Proof.
  induction w as [|c rest IH]; simpl; intros H; [reflexivity|].
  apply orb_false_iff in H as [Hc Hrest].
  rewrite Hc, (IH Hrest). reflexivity.
Qed.

Lemma ws_fields_after_word w rest :
  has_whitespace w = false ->
  PyStr.ws_fields (w ++ String " " rest) = w :: PyStr.ws_fields rest.
Proof.
  induction w as [|c w' IH]; simpl; intros H; [reflexivity|].
  apply orb_false_iff in H as [Hc Hw'].
  rewrite Hc, (IH Hw'). reflexivity.
Qed.

(** Splitting what [join] made of words gives the words back. *)
Lemma split_ws_join words :
  forallb is_word words = true ->
  PyStr.split_ws (PyStr.join " " words) = words.
Proof.
  induction words as [|w ws IH]; simpl; intros H; [reflexivity|].
  apply andb_true_iff in H as [Hw Hws].
  unfold is_word in Hw. apply andb_true_iff in Hw as [Hne Hclean].
  apply negb_true_iff in Hne, Hclean.
  destruct ws as [|w2 ws].
  - unfold PyStr.split_ws. rewrite (ws_fields_of_word _ Hclean). simpl.
    rewrite Hne. reflexivity.
  - unfold PyStr.split_ws. simpl String.append.
    change (w ++ " " ++ PyStr.join " " (w2 :: ws))%string
      with (w ++ String " " (PyStr.join " " (w2 :: ws)))%string.
    rewrite (ws_fields_after_word _ _ Hclean). simpl filter. rewrite Hne.
    simpl negb. cbv iota. f_equal. exact (IH Hws).
Qed.

(** Sanitizing a tidy string changes nothing. *)
Lemma join_split_ws_tidy d :
  tidy d -> PyStr.join " " (PyStr.split_ws d) = d.
Proof.
  intros (words & -> & Hwords). rewrite (split_ws_join _ Hwords). reflexivity.
Qed.

Lemma append_not_empty a b :
  PyStr.is_empty b = false -> PyStr.is_empty (a ++ b) = false.
Proof. destruct a; simpl; intros H; [exact H | reflexivity]. Qed.

Lemma rstrip_append a b :
  PyStr.rstrip (a ++ b)
  = if PyStr.is_empty (PyStr.rstrip b) then PyStr.rstrip a
    else (a ++ PyStr.rstrip b)%string.
Proof.
  induction a as [|c a IH]; simpl.
  - destruct (PyStr.rstrip b); reflexivity.
  - rewrite IH. destruct (PyStr.is_empty (PyStr.rstrip b)) eqn:Hb.
    + reflexivity.
    + rewrite (append_not_empty _ _ Hb), andb_false_r. reflexivity.
Qed.

Lemma rstrip_clean w : has_whitespace w = false -> PyStr.rstrip w = w.
Proof.
  induction w as [|c rest IH]; simpl; intros H; [reflexivity|].
  apply orb_false_iff in H as [Hc Hrest].
  rewrite Hc, (IH Hrest). reflexivity.
Qed.

(** A tidy string has no white space to strip on the right. *)
Lemma rstrip_tidy d : tidy d -> PyStr.rstrip d = d.
Proof.
  intros (words & -> & Hwords).
  induction words as [|w ws IH]; [reflexivity|].
  simpl in Hwords. apply andb_true_iff in Hwords as [Hw Hws].
  unfold is_word in Hw. apply andb_true_iff in Hw as [Hne Hclean].
  apply negb_true_iff in Hne, Hclean.
  destruct ws as [|w2 ws]; [exact (rstrip_clean _ Hclean)|].
  specialize (IH Hws).
  change (PyStr.join " " (w :: w2 :: ws))
    with (w ++ (String " " (PyStr.join " " (w2 :: ws))))%string.
  rewrite rstrip_append.
  assert (Hrest : PyStr.rstrip (String " " (PyStr.join " " (w2 :: ws)))
                  = String " " (PyStr.join " " (w2 :: ws))).
  { change (String " " (PyStr.join " " (w2 :: ws)))
      with (" " ++ PyStr.join " " (w2 :: ws))%string.
    rewrite rstrip_append, IH.
    simpl in Hws. apply andb_true_iff in Hws as [Hw2 _].
    unfold is_word in Hw2. apply andb_true_iff in Hw2 as [Hne2 _].
    apply negb_true_iff in Hne2.
    assert (Hj : PyStr.is_empty (PyStr.join " " (w2 :: ws)) = false).
    { simpl. destruct ws; [exact Hne2|].
      destruct w2; [discriminate Hne2 | reflexivity]. }
    rewrite Hj. reflexivity. }
  rewrite Hrest. reflexivity.
Qed.

Lemma lstrip_word w rest :
  is_word w = true -> PyStr.lstrip (w ++ rest) = (w ++ rest)%string.
Proof.
  unfold is_word. intros H. apply andb_true_iff in H as [Hne Hclean].
  apply negb_true_iff in Hclean.
  destruct w as [|c w]; [discriminate Hne|].
  simpl in *. apply orb_false_iff in Hclean as [Hc _]. rewrite Hc. reflexivity.
Qed.

Lemma clean_has_no_separator w :
  has_whitespace w = false -> PyStr.contains " " w = false.
Proof.
  induction w as [|c rest IH]; simpl; intros H; [reflexivity|].
  apply orb_false_iff in H as [Hc Hrest]. rewrite (IH Hrest), orb_false_r.
  destruct (Ascii.eqb c " ") eqn:Heq; [|reflexivity].
  apply Ascii.eqb_eq in Heq. subst c. discriminate Hc.
Qed.

Lemma split_on_exhausted sep s : PyStr.split_on sep (Some O) s = [s].
Proof.
  induction s as [|c rest IH]; simpl; [reflexivity|].
  rewrite IH. destruct (Ascii.eqb c sep); reflexivity.
Qed.

Lemma split_on_after_field sep k a rest :
  PyStr.contains sep a = false ->
  PyStr.split_on sep (Some (S k)) (a ++ String sep rest)
  = a :: PyStr.split_on sep (Some k) rest.
Proof.
  induction a as [|c a IH]; simpl; intros H.
  - rewrite Ascii.eqb_refl. reflexivity.
  - apply orb_false_iff in H as [Hc Ha]. rewrite Hc, (IH Ha). reflexivity.
Qed.

(** Stripping a command line made of a word and tidy data takes off at
    most the space after a lone command. *)
Lemma strip_command_line cmd d :
  is_word cmd = true ->
  tidy d ->
  PyStr.strip (cmd ++ String " " d)
  = if PyStr.is_empty d then cmd else (cmd ++ String " " d)%string.
Proof.
  intros Hcmd Htidy.
  pose proof Hcmd as Hparts. unfold is_word in Hparts.
  apply andb_true_iff in Hparts as [_ Hclean]. apply negb_true_iff in Hclean.
  unfold PyStr.strip. rewrite (lstrip_word _ _ Hcmd), rstrip_append.
  change (String " " d) with (" " ++ d)%string.
  rewrite rstrip_append, (rstrip_tidy _ Htidy).
  destruct (PyStr.is_empty d) eqn:He; simpl.
  - apply (rstrip_clean _ Hclean).
  - reflexivity.
Qed.

(** Round trip: a string [get_message_data] returned for one part comes
    back unchanged when it is sent again as the data of a command. *)
Theorem get_message_data_round_trip msg d cmd g c a :
  get_message_data msg 1 = VStr d ->
  is_word cmd = true ->
  get_message_data (message (cmd ++ " " ++ d) g c a) 1 = VStr d.
Proof.
  intros Hd Hcmd.
  assert (Htidy : tidy d).
  { revert Hd. unfold get_message_data. simpl.
    pose proof (sanitized_fields_tidy
                  (tl (PyStr.split (PyStr.strip (content msg)) " " 1))) as H.
    destruct (map _ _) as [|d' ds]; intros Hd; inversion Hd; subst.
    - exists []. split; reflexivity.
    - inversion H; assumption. }
  pose proof Hcmd as Hparts. unfold is_word in Hparts.
  apply andb_true_iff in Hparts as [_ Hclean]. apply negb_true_iff in Hclean.
  pose proof (clean_has_no_separator _ Hclean) as Hsep.
  unfold get_message_data, PyStr.split. simpl content.
  change (cmd ++ " " ++ d)%string with (cmd ++ String " " d)%string.
  rewrite (strip_command_line _ _ Hcmd Htidy).
  change (Z.to_nat 1) with 1%nat. change (1 <? 0) with false.
  change (1 =? 1) with true. cbv iota.
  destruct (PyStr.is_empty d) eqn:He.
  - destruct d; [|discriminate He].
    rewrite (split_on_without_separator _ _ _ Hsep). reflexivity.
  - rewrite (split_on_after_field _ _ _ _ Hsep), split_on_exhausted. simpl.
    rewrite (join_split_ws_tidy _ Htidy). reflexivity.
Qed.

Lemma get_message_data_round_trip_witness :
  get_message_data
    (message "m!again Some Movie" None dm_channel alice) 1
  = VStr "Some Movie".
Proof.
  apply (get_message_data_round_trip
           (alice_says "  m!suggest   Some   Movie ") "Some Movie" "m!again");
    reflexivity.
Defined.

(** With two parts or more asked for, a second space right after the
    command makes the first member of the tuple the empty string: only
    the white space inside a field is collapsed, not the one between
    fields. *)
Theorem doubled_space_gives_empty_field msg cmd rest n :
  PyStr.strip (content msg) = (cmd ++ "  " ++ rest)%string ->
  PyStr.contains " " cmd = false ->
  2 <= n ->
  exists more, get_message_data msg n = VTuple (VStr "" :: more).
Proof.
  intros Htext Hcmd Hn. unfold get_message_data, PyStr.split. rewrite Htext.
  assert (Hne : (n =? 1) = false) by (apply Z.eqb_neq; lia).
  assert (Hpos : (n <? 0) = false) by (apply Z.ltb_ge; lia).
  rewrite Hne, Hpos.
  destruct (Z.to_nat n) as [|[|k]] eqn:Hk; try lia.
  change (cmd ++ "  " ++ rest)%string
    with (cmd ++ String " " (String " " rest))%string.
  rewrite (split_on_after_field _ _ _ _ Hcmd).
  change (String " " rest) with ("" ++ String " " rest)%string.
  rewrite (split_on_after_field " " k "" rest eq_refl).
  simpl. eexists. reflexivity.
Qed.

Lemma doubled_space_gives_empty_field_witness :
  exists more,
    get_message_data (alice_says "m!rename  Alien Aliens") 2
    = VTuple (VStr "" :: more).
Proof.
  apply (doubled_space_gives_empty_field
           (alice_says "m!rename  Alien Aliens") "m!rename" "Alien Aliens" 2);
    [reflexivity | reflexivity | lia].
Defined.

Lemma get_message_data_is_tidy_witness :
  exists d,
    get_message_data (alice_says "m!suggest  The   Thing ") 1 = VStr d
    /\ tidy d.
Proof.
  apply (proj1 (get_message_data_is_tidy
                  (alice_says "m!suggest  The   Thing ") 1)).
  reflexivity.
Defined.

Lemma get_message_data_count_witness :
  exists fields,
    get_message_data (alice_says "m!rename Alien Aliens 2 now") 2
    = VTuple (map VStr fields)
    /\ Z.of_nat (List.length fields) <= 2.
Proof.
  apply (get_message_data_count (alice_says "m!rename Alien Aliens 2 now") 2);
    lia.
Defined.

Lemma get_message_data_no_data_witness :
  get_message_data (alice_says " m!rename ") 2 = VTuple [].
Proof.
  apply (get_message_data_no_data (alice_says " m!rename ") 2);
    [reflexivity | lia].
Defined.

(** * Further properties of [user_vote_count] *)

Lemma find_row_id gid rows row :
  find (fun r => id r =? gid) rows = Some row -> id row = gid.
Proof.
  intros H. destruct (find_some _ _ H) as [_ Hid]. apply Z.eqb_eq. exact Hid.
Qed.

(** Storing twice what was stored once changes nothing more. *)
Lemma update_twice n row rows :
  map (fun old =>
         if id old =? id row
         then set_num_votes_per_user n (set_num_votes_per_user n row)
         else old)
    (map (fun old =>
            if id old =? id row then set_num_votes_per_user n row else old)
       rows)
  = map (fun old =>
           if id old =? id row then set_num_votes_per_user n row else old)
      rows.
Proof.
  rewrite map_map. apply map_ext. intros old.
  destruct (id old =? id row) eqn:Hid.
  - simpl. rewrite Z.eqb_refl. reflexivity.
  - rewrite Hid. reflexivity.
Qed.

(** The same command a second time leaves the world as the first run
    left it: the value it stored is accepted again and stored again. *)
Theorem user_vote_count_idempotent msg w :
  snd (user_vote_count_action msg (snd (user_vote_count_action msg w)))
  = snd (user_vote_count_action msg w).
Proof.
  destruct (user_vote_count_cases msg w)
    as [Hsame | (n & g & row & Hn & Hg & Hrow & Hge & Hle & Hw')].
  - rewrite Hsame. exact Hsame.
  - rewrite Hw'.
    set (rows' := map (fun old =>
                         if id old =? id row
                         then set_num_votes_per_user n row else old)
                    (servers w)).
    set (w1 := set_servers rows' w).
    assert (Hn1 : py_int (get_message_data msg 1) w1 = (Ok n, w1)).
    { revert Hn. destruct (get_message_data_is_str msg) as [s ->]. simpl.
      destruct (PyStr.to_int s); unfold ret, raise; intros H; inversion H.
      reflexivity. }
    assert (Hrow1 : find (fun r => id r =? guild_id g) (servers w1)
                    = Some (set_num_votes_per_user n row)).
    { subst w1 rows'. change (servers (set_servers ?rows w)) with rows.
      rewrite (find_after_update (set_num_votes_per_user n row)), Hrow.
      simpl. rewrite Z.eqb_refl. reflexivity. }
    rewrite (user_vote_count_in_transaction _ _ _ _ _ Hn1 Hge Hg Hrow1).
    simpl num_votes_per_user. rewrite Z.ltb_irrefl. simpl snd.
    subst w1 rows'. unfold set_servers at 1. simpl.
    rewrite (update_twice n row (servers w)). reflexivity.
Qed.

(** The action sends nothing and logs nothing itself, and of the table it
    can change only [num_votes_per_user] of the guild of the message: the
    row found for any guild keeps its other fields, and the row found for
    another guild is the one found before. *)
Theorem user_vote_count_frame msg w :
  trace (snd (user_vote_count_action msg w)) = trace w
  /\ platform (snd (user_vote_count_action msg w)) = platform w
  /\ (forall gid old,
         find (fun r => id r =? gid) (servers w) = Some old ->
         exists new,
           find (fun r => id r =? gid)
             (servers (snd (user_vote_count_action msg w))) = Some new
           /\ id new = id old
           /\ channel new = channel old
           /\ admin_role new = admin_role old
           /\ message_timeout new = message_timeout old
           /\ ((forall g, guild msg = Some g -> guild_id g <> gid) ->
               new = old)).
Proof.
  destruct (user_vote_count_cases msg w)
    as [Hsame | (n & g & row & _ & Hg & Hrow & _ & _ & Hw')].
  - rewrite Hsame. repeat split; try reflexivity.
    intros gid old Hold. exists old. split; [exact Hold|].
    repeat split; reflexivity.
  - rewrite Hw'. repeat split; try reflexivity.
    intros gid old Hold.
    change (servers (set_servers ?rows w)) with rows.
    rewrite (find_after_update (set_num_votes_per_user n row)), Hold. simpl.
    destruct (id old =? id row) eqn:Hid.
    + apply Z.eqb_eq in Hid.
      pose proof (find_row_id _ _ _ Hold) as Hoid.
      pose proof (find_row_id _ _ _ Hrow) as Hrid.
      assert (Hgid : gid = guild_id g) by lia.
      rewrite Hgid, Hrow in Hold. inversion Hold; subst old.
      eexists. split; [reflexivity|]. repeat split.
      intros Hother. exfalso. apply (Hother g Hg). symmetry. exact Hgid.
    + exists old. split; [reflexivity|]. repeat split; reflexivity.
Qed.

Lemma check_proceed_allows self msg w g row :
  guild msg = Some g ->
  find (fun r => id r =? guild_id g) (servers w) = Some row ->
  channel_id (msg_channel msg) = channel row ->
  administrator (author msg) = true
  \/ mem_string (admin_role row) (roles (author msg)) = true ->
  _check_proceed self msg w = (Ok true, w).
Proof.
  intros Hg Hrow Hch Hpass.
  unfold _check_proceed. rewrite Hg, andb_false_r.
  unfold bind at 1, msg_guild. rewrite Hg. unfold ret at 1.
  unfold bind at 1. rewrite (get_by_id_found _ _ _ Hrow).
  rewrite Hch, Z.eqb_refl. simpl.
  destruct Hpass as [Hflag | Hrole].
  - rewrite Hflag. reflexivity.
  - rewrite Hrole, andb_false_r, andb_false_r. reflexivity.
Qed.

Section VoteCountDispatch.

(** An admin, or a holder of the admin role, writes the command in the
    configured channel of a guild that has a settings row. *)
Variables (msg : Message) (w : World) (g : Guild) (row : ServerRow).
Hypothesis Hguild : guild msg = Some g.
Hypothesis Hrow : find (fun r => id r =? guild_id g) (servers w) = Some row.
Hypothesis Hchannel : channel_id (msg_channel msg) = channel row.
Hypothesis Hadmin :
  administrator (author msg) = true
  \/ mem_string (admin_role row) (roles (author msg)) = true.

(** End to end, a number that is at least 1 and at least the stored one:
    the dispatch stores it for the guild and makes one [send], on the
    channel, that names the new value. *)
Theorem user_vote_count_dispatch_accepts s n :
  get_message_data msg 1 = VStr s ->
  PyStr.to_int s = Some n ->
  1 <= n ->
  num_votes_per_user row <= n ->
  next_answer w = None ->
  let reply :=
    Send MsgChannel
      [VStr ("Number of votes per user updated to " ++ PyStr.of_int n)] [] in
  let w' :=
    answered
      (emit reply
         (set_servers
            (map (fun old =>
                    if id old =? id row then set_num_votes_per_user n row
                    else old)
               (servers w))
            (started UserVoteCountAction msg w))) in
  __call__ UserVoteCountAction msg w = (Ok tt, w')
  /\ stored_votes (guild_id g) w' = Some n
  /\ sends w' = sends w ++ [reply].
Proof.
  intros Hs Hparse Hge Hle Hacc reply w'.
  pose proof (check_proceed_allows UserVoteCountAction _ _ _ _
                Hguild Hrow Hchannel Hadmin) as Hcheck.
  set (w0 := started UserVoteCountAction msg w).
  assert (Hn : py_int (get_message_data msg 1) w0 = (Ok n, w0)).
  { rewrite Hs. simpl. rewrite Hparse. reflexivity. }
  assert (Hbody := user_vote_count_in_transaction msg w0 n g row Hn Hge Hguild Hrow).
  assert (Hcmp : (n <? num_votes_per_user row) = false)
    by (apply Z.ltb_ge; exact Hle).
  rewrite Hcmp in Hbody. split; [|split].
  - rewrite (call_when_body_returns UserVoteCountAction _ _ _ _
               Hguild Hrow Hcheck _ _ Hbody).
    unfold try_except, deliver, bind. simpl.
    rewrite send_by_answer.
    change (next_answer (set_servers ?rows w0)) with (next_answer w).
    rewrite Hacc. reflexivity.
  - subst w'. unfold stored_votes. simpl.
    rewrite (find_after_update (set_num_votes_per_user n row)), Hrow.
    simpl. rewrite Z.eqb_refl. reflexivity.
  - subst w'. rewrite sends_answered, sends_emit. simpl.
    unfold sends. simpl. rewrite filter_app. simpl. rewrite app_nil_r.
    reflexivity.
Qed.

(** End to end, a text that is no integer (the command alone, a word,
    "1.5"): the [ValueError] of [int] is logged, the channel gets the
    generic message, and the table stays as it was. *)
Theorem user_vote_count_dispatch_bad_number s :
  get_message_data msg 1 = VStr s ->
  PyStr.to_int s = None ->
  let notice := Send MsgChannel [VStr error_message] [] in
  let w' :=
    answered
      (emit notice
         (emit (Log "movienightbot" ERROR (inr ValueError))
            (started UserVoteCountAction msg w))) in
  __call__ UserVoteCountAction msg w = (send_result (next_answer w), w')
  /\ servers w' = servers w
  /\ sends w' = sends w ++ [notice].
Proof.
  intros Hs Hparse notice w'.
  pose proof (check_proceed_allows UserVoteCountAction _ _ _ _
                Hguild Hrow Hchannel Hadmin) as Hcheck.
  set (w0 := started UserVoteCountAction msg w).
  assert (Hbody : action UserVoteCountAction msg w0 = (Raise ValueError, w0)).
  { simpl. unfold user_vote_count_action, bind at 1. rewrite Hs. simpl.
    rewrite Hparse. reflexivity. }
  split; [|split].
  - rewrite (call_when_body_raises UserVoteCountAction _ _ _ _
               Hguild Hrow Hcheck _ _ Hbody).
    simpl. unfold bind, log_exception. rewrite send_by_answer. reflexivity.
  - reflexivity.
  - subst w'. unfold started. rewrite sends_answered, !sends_emit. simpl.
    rewrite !app_nil_r. reflexivity.
Qed.

End VoteCountDispatch.

Lemma user_vote_count_idempotent_witness :
  servers
    (snd (user_vote_count_action (host_says "m!user_vote_count 5")
            (snd (user_vote_count_action (host_says "m!user_vote_count 5")
                    (world_with [])))))
  = [set_num_votes_per_user 5 movie_row].
Proof.
  rewrite (user_vote_count_idempotent (host_says "m!user_vote_count 5")
             (world_with [])).
  reflexivity.
Defined.

Lemma user_vote_count_frame_witness :
  exists new,
    find (fun r => id r =? 7)
      (servers (snd (user_vote_count_action (host_says "m!user_vote_count 5")
                       (world_with []))))
    = Some new
    /\ id new = 7
    /\ channel new = 70
    /\ admin_role new = "Movie Master"
    /\ message_timeout new = 10
    /\ ((forall g, guild (host_says "m!user_vote_count 5") = Some g ->
         guild_id g <> 7) -> new = movie_row).
Proof.
  apply (proj2 (proj2 (user_vote_count_frame
                         (host_says "m!user_vote_count 5") (world_with [])))
           7 movie_row).
  reflexivity.
Defined.

Lemma user_vote_count_dispatch_accepts_witness :
  __call__ UserVoteCountAction (host_says "m!user_vote_count  5 ")
    (world_with [])
  = (Ok tt,
     {| trace :=
          [Log "movienightbot" INFO
             (inl "Running action user_vote_count on Cinema from user host");
           Send MsgChannel [VStr "Number of votes per user updated to 5"] []];
        servers := [set_num_votes_per_user 5 movie_row];
        platform := [] |}).
Proof.
  apply (user_vote_count_dispatch_accepts
           (host_says "m!user_vote_count  5 ") (world_with [])
           movie_guild movie_row eq_refl eq_refl eq_refl
           (or_intror eq_refl) "5" 5 eq_refl eq_refl);
    [lia | simpl; lia | reflexivity].
Defined.

Lemma user_vote_count_dispatch_bad_number_witness :
  __call__ UserVoteCountAction (host_says "m!user_vote_count") (world_with [])
  = (Ok tt,
     {| trace :=
          [Log "movienightbot" INFO
             (inl "Running action user_vote_count on Cinema from user host");
           Log "movienightbot" ERROR (inr ValueError);
           Send MsgChannel [VStr error_message] []];
        servers := [movie_row];
        platform := [] |}).
Proof.
  apply (user_vote_count_dispatch_bad_number
           (host_says "m!user_vote_count") (world_with [])
           movie_guild movie_row eq_refl eq_refl eq_refl
           (or_intror eq_refl) "" eq_refl eq_refl).
Defined.

(** * Properties of [cancel_vote] *)

Section CancelVoteFacts.

Variable vote_get_by_id : Z -> M VoteRow.
Variable cancel_vote : Z -> M unit.
Variable fetch_message : Z -> M PyVal.
Variable clear_reactions : PyVal -> M unit.
Variable edit : PyVal -> string -> PyVal -> M unit.

(** No vote is stored for the guild: the action tells the channel so with
    one [send] and returns [None]; whatever [cancel_vote], [fetch_message],
    [clear_reactions] and [edit] would do, none of them runs.  When the
    platform answers that [send] with an exception, the exception leaves
    the action through the transaction, which restores the table. *)
Theorem cancel_vote_without_vote msg w g w1 :
  guild msg = Some g ->
  vote_get_by_id (guild_id g) w = (Raise DoesNotExist, w1) ->
  let told := answered (emit (Send MsgChannel [VStr "No vote started!"] []) w1) in
  cancel_vote_action vote_get_by_id cancel_vote fetch_message clear_reactions
    edit msg w
  = match next_answer w1 with
    | None => (Ok VNone, told)
    | Some e => (Raise e, set_servers (servers w) told)
    end.
Proof.
  intros Hg Hvote told.
  unfold cancel_vote_action, bind at 1, msg_guild. rewrite Hg. unfold ret at 1.
  unfold bind at 1, transaction, bind at 1, attempt. rewrite Hvote.
  unfold bind at 1. rewrite send_by_answer. fold told.
  destruct (next_answer w1); reflexivity.
Qed.

(** Whenever the action returns, it returns [None]. *)
Lemma cancel_vote_action_returns_none msg w v w1 :
  cancel_vote_action vote_get_by_id cancel_vote fetch_message clear_reactions
    edit msg w
  = (Ok v, w1) ->
  v = VNone.
Proof.
  unfold cancel_vote_action, bind, transaction, attempt, msg_guild, ret, raise.
  destruct (guild msg) as [g|]; [|discriminate].
  destruct (vote_get_by_id (guild_id g) w) as [[row|e] w2].
  - destruct (cancel_vote (guild_id g) w2) as [[[]|e] w3]; [|discriminate].
    destruct (fetch_message (message_id row) w3) as [[m|e] w4]; [|discriminate].
    destruct (clear_reactions m w4) as [[[]|e] w5]; [|discriminate].
    destruct (edit m _ VNone w5) as [[[]|e] w6]; [|discriminate].
    intros H; inversion H; reflexivity.
  - destruct e; try discriminate.
    destruct (send MsgChannel _ _ w2) as [[[]|e] w3]; [|discriminate].
    intros H; inversion H; reflexivity.
Qed.

(** Dispatched through [__call__], a [cancel_vote] whose body completes
    (the vote was cancelled, or there was none) is recorded as an action
    that did not return a two-member tuple: [__call__] writes that error
    record and makes no [send] of its own. *)
Theorem cancel_vote_dispatch_logs_error msg w g row v w1 :
  let self :=
    CancelVoteAction vote_get_by_id cancel_vote fetch_message clear_reactions
      edit in
  guild msg = Some g ->
  find (fun r => id r =? guild_id g) (servers w) = Some row ->
  _check_proceed self msg w = (Ok true, w) ->
  action self msg (started self msg w) = (Ok v, w1) ->
  __call__ self msg w
  = (Ok tt,
     emit (Log "movienightbot" ERROR
             (inl "Action did not return a two-member tuple!")) w1).
Proof.
  intros self Hg Hrow Hcheck Hbody.
  pose proof (cancel_vote_action_returns_none _ _ _ _ Hbody) as Hv. subst v.
  rewrite (call_when_body_returns self _ _ _ _ Hg Hrow Hcheck _ _ Hbody).
  reflexivity.
Qed.

End CancelVoteFacts.

Lemma cancel_vote_without_vote_witness :
  action no_vote_cancel_vote (host_says "m!cancel_vote") (world_with [])
  = (Ok VNone,
     {| trace := [Send MsgChannel [VStr "No vote started!"] []];
        servers := [movie_row];
        platform := [] |}).
Proof.
  exact (cancel_vote_without_vote
           (fun _ => raise DoesNotExist) (fun _ => ret tt)
           (fun n => ret (VObject 1)) (fun _ => ret tt) (fun _ _ _ => ret tt)
           (host_says "m!cancel_vote") (world_with []) movie_guild
           (world_with []) eq_refl eq_refl).
Defined.

Lemma cancel_vote_dispatch_logs_error_witness :
  __call__ quiet_cancel_vote (host_says "m!cancel_vote") (world_with [])
  = (Ok tt,
     {| trace :=
          [Log "movienightbot" INFO
             (inl "Running action cancel_vote on Cinema from user host");
           Log "movienightbot" ERROR
             (inl "Action did not return a two-member tuple!")];
        servers := [movie_row];
        platform := [] |}).
Proof.
  apply (cancel_vote_dispatch_logs_error
           (fun _ => ret {| message_id := 555 |}) (fun _ => ret tt)
           (fun n => ret (VObject 1)) (fun _ => ret tt) (fun _ _ _ => ret tt)
           (host_says "m!cancel_vote") (world_with []) movie_guild movie_row
           VNone _ eq_refl eq_refl eq_refl eq_refl).
Defined.

(** * Properties of [_get_actions] *)

Lemma dict_set_entries {V} key (v : V) d k a :
  In (k, a) (dict_set key v d) -> (k = key /\ a = v) \/ In (k, a) d.
Proof.
  induction d as [|[k0 v0] d IH]; simpl.
  - intros [H|[]]. inversion H. left; split; reflexivity.
  - destruct (String.eqb k0 key) eqn:Hk.
    + apply String.eqb_eq in Hk. subst k0.
      intros [H|H]; [inversion H; left; split; reflexivity | right; right; exact H].
    + intros [H|H]; [right; left; exact H|].
      destruct (IH H) as [Hnew|Hold]; [left; exact Hnew | right; right; exact Hold].
Qed.

Lemma dict_set_keys {V} key (v : V) d k :
  In k (map fst (dict_set key v d)) -> k = key \/ In k (map fst d).
Proof.
  induction d as [|[k0 v0] d IH]; simpl.
  - intros [H|[]]. left; symmetry; exact H.
  - destruct (String.eqb k0 key) eqn:Hk; simpl.
    + intros H. right. exact H.
    + intros [H|H]; [right; left; exact H|].
      destruct (IH H) as [Hnew|Hold]; [left; exact Hnew | right; right; exact Hold].
Qed.

Lemma dict_set_no_dup {V} key (v : V) d :
  NoDup (map fst d) -> NoDup (map fst (dict_set key v d)).
Proof.
  induction d as [|[k0 v0] d IH]; simpl; intros H.
  - constructor; [intros [] | constructor].
  - inversion H as [|? ? Hnotin Hrest]; subst.
    destruct (String.eqb k0 key) eqn:Hk; simpl.
    + constructor; assumption.
    + constructor; [|exact (IH Hrest)].
      intros Hin. destruct (dict_set_keys _ _ _ _ Hin) as [Heq|Hold].
      * subst k0. rewrite String.eqb_refl in Hk. discriminate.
      * exact (Hnotin Hold).
Qed.

Lemma dict_get_entry {V} (d : list (string * V)) k a :
  NoDup (map fst d) -> In (k, a) d -> dict_get k d = Some a.
Proof.
  induction d as [|[k0 v0] d IH]; simpl; intros Hnd Hin; [contradiction|].
  inversion Hnd as [|? ? Hnotin Hrest]; subst.
  destruct Hin as [H|H].
  - inversion H; subst. rewrite String.eqb_refl. reflexivity.
  - destruct (String.eqb k0 k) eqn:Hk; [|exact (IH Hrest H)].
    apply String.eqb_eq in Hk. subst k0. exfalso. apply Hnotin.
    apply (in_map fst) in H. exact H.
Qed.

Lemma dict_get_some_entry {V} (d : list (string * V)) k a :
  dict_get k d = Some a -> In (k, a) d.
Proof.
  induction d as [|[k0 v0] d IH]; simpl; [discriminate|].
  destruct (String.eqb k0 k) eqn:Hk.
  - apply String.eqb_eq in Hk. subst k0. intros H; inversion H. left; reflexivity.
  - intros H. right. exact (IH H).
Qed.

Lemma dict_set_keeps_keys {V} key (v : V) d k :
  dict_get k d <> None -> dict_get k (dict_set key v d) <> None.
Proof.
  induction d as [|[k0 v0] d IH]; simpl; [intros H; contradiction|].
  destruct (String.eqb k0 key) eqn:Hkey; simpl.
  - destruct (String.eqb k0 k); [discriminate | exact (fun H => H)].
  - destruct (String.eqb k0 k); [discriminate | exact IH].
Qed.

Lemma dict_get_set_same {V} key (v : V) d :
  dict_get key (dict_set key v d) <> None.
Proof.
  induction d as [|[k0 v0] d IH]; simpl.
  - rewrite String.eqb_refl. discriminate.
  - destruct (String.eqb k0 key) eqn:Hk; simpl; rewrite Hk;
      [discriminate | exact IH].
Qed.

(** The registry under construction keeps its keys distinct and each
    action under its own name. *)
Lemma register_classes_well_keyed rc classes actions d :
  register_classes rc classes actions = Ok d ->
  NoDup (map fst actions)
  /\ (forall k a, In (k, a) actions -> action_name a = k) ->
  NoDup (map fst d) /\ (forall k a, In (k, a) d -> action_name a = k).
Proof.
  revert actions. induction classes as [|cn classes IH]; simpl; intros actions.
  - intros H; inversion H; subst. exact (fun Hinv => Hinv).
  - destruct (dict_get cn rc) as [cls|]; [|discriminate].
    destruct (negb (is_base_action cls)); [apply IH|].
    destruct (instantiate cls) as [inst|e]; [|discriminate].
    intros H [Hnd Hnames]. apply (IH _ H). split.
    + apply dict_set_no_dup. exact Hnd.
    + intros k a Hin. destruct (dict_set_entries _ _ _ _ _ Hin) as [[-> ->]|Hold];
        [reflexivity | exact (Hnames _ _ Hold)].
Qed.

Lemma scan_files_well_keyed files actions d :
  scan_files files actions = Ok d ->
  NoDup (map fst actions)
  /\ (forall k a, In (k, a) actions -> action_name a = k) ->
  NoDup (map fst d) /\ (forall k a, In (k, a) d -> action_name a = k).
Proof.
  revert actions. induction files as [|file files IH]; simpl; intros actions.
  - intros H; inversion H; subst. exact (fun Hinv => Hinv).
  - destruct (skipped file); [apply IH|].
    destruct (class_defs file) as [classes|e]; [|discriminate].
    destruct (module_dict file) as [rc|e]; [|discriminate].
    destruct (register_classes rc classes actions) as [actions'|e] eqn:Hreg;
      [|discriminate].
    intros H Hinv. apply (IH _ H).
    exact (register_classes_well_keyed _ _ _ _ Hreg Hinv).
Qed.

(** When the discovery succeeds, the names in the registry are distinct,
    every action is stored under its own [action_name], and looking that
    name up gives the action back. *)
Theorem registry_lookup_by_name files d :
  _get_actions files = Ok d ->
  NoDup (map fst d)
  /\ forall k a,
       In (k, a) d ->
       action_name a = k /\ dict_get (action_name a) d = Some a.
Proof.
  intros H.
  destruct (scan_files_well_keyed files [] d H) as [Hnd Hnames].
  { split; [constructor | intros k a []]. }
  split; [exact Hnd|]. intros k a Hin.
  pose proof (Hnames _ _ Hin) as Hk. split; [exact Hk|].
  rewrite Hk. exact (dict_get_entry _ _ _ Hnd Hin).
Qed.

(** Directories, entries whose name starts with two underscores and
    entries whose name does not end in ".py" have no part in the result,
    not even when they cannot be parsed or imported. *)
Theorem skipped_entries_do_not_count files :
  _get_actions files = _get_actions (filter (fun f => negb (skipped f)) files).
Proof.
  unfold _get_actions. generalize (@nil (string * Action)).
  induction files as [|file files IH]; intros actions; [reflexivity|].
  simpl. destruct (skipped file) eqn:Hskip; simpl; [apply IH|].
  rewrite Hskip.
  destruct (class_defs file); [|reflexivity].
  destruct (module_dict file); [|reflexivity].
  destruct (register_classes _ _ _); [apply IH | reflexivity].
Qed.

Lemma register_classes_keeps rc classes actions d k :
  register_classes rc classes actions = Ok d ->
  dict_get k actions <> None ->
  dict_get k d <> None.
Proof.
  revert actions. induction classes as [|cn classes IH]; simpl; intros actions.
  - intros H; inversion H; subst. exact (fun Hk => Hk).
  - destruct (dict_get cn rc) as [cls|]; [|discriminate].
    destruct (negb (is_base_action cls)); [apply IH|].
    destruct (instantiate cls) as [inst|e]; [|discriminate].
    intros H Hk. apply (IH _ H). apply dict_set_keeps_keys. exact Hk.
Qed.

Lemma register_classes_adds rc classes actions d cn cls inst :
  register_classes rc classes actions = Ok d ->
  In cn classes ->
  dict_get cn rc = Some cls ->
  is_base_action cls = true ->
  instantiate cls = Ok inst ->
  dict_get (action_name inst) d <> None.
Proof.
  revert actions. induction classes as [|c classes IH]; simpl; intros actions;
    [intros _ []|].
  intros H [Heq|Hin] Hcls Hbase Hinst.
  - subst c. rewrite Hcls, Hbase, Hinst in H. simpl in H.
    apply (register_classes_keeps _ _ _ _ _ H). apply dict_get_set_same.
  - destruct (dict_get c rc) as [cls'|]; [|discriminate].
    destruct (negb (is_base_action cls')); [exact (IH _ H Hin Hcls Hbase Hinst)|].
    destruct (instantiate cls') as [inst'|e]; [|discriminate].
    exact (IH _ H Hin Hcls Hbase Hinst).
Qed.

Lemma scan_files_keeps files actions d k :
  scan_files files actions = Ok d ->
  dict_get k actions <> None ->
  dict_get k d <> None.
Proof.
  revert actions. induction files as [|file files IH]; simpl; intros actions.
  - intros H; inversion H; subst. exact (fun Hk => Hk).
  - destruct (skipped file); [apply IH|].
    destruct (class_defs file) as [classes|e]; [|discriminate].
    destruct (module_dict file) as [rc|e]; [|discriminate].
    destruct (register_classes rc classes actions) as [actions'|e] eqn:Hreg;
      [|discriminate].
    intros H Hk. apply (IH _ H).
    exact (register_classes_keeps _ _ _ _ _ Hreg Hk).
Qed.

(** When the discovery succeeds, every class of an entry it reads that
    is a subclass of [BaseAction] has its name in the registry, bound to
    an action of that name (its own instance, or that of a class of the
    same name registered later). *)
Theorem action_classes_are_registered files d file classes rc cn cls inst :
  _get_actions files = Ok d ->
  In file files ->
  skipped file = false ->
  class_defs file = Ok classes ->
  module_dict file = Ok rc ->
  In cn classes ->
  dict_get cn rc = Some cls ->
  is_base_action cls = true ->
  instantiate cls = Ok inst ->
  exists a,
    dict_get (action_name inst) d = Some a
    /\ action_name a = action_name inst.
Proof.
  intros Hd Hfile Hskip Hclasses Hrc Hcn Hcls Hbase Hinst.
  assert (Hkey : dict_get (action_name inst) d <> None).
  { revert Hd. unfold _get_actions. generalize (@nil (string * Action)).
    induction files as [|f files IH]; [destruct Hfile|].
    intros actions. simpl. destruct Hfile as [Heq|Hin].
    - subst f. rewrite Hskip, Hclasses, Hrc.
      destruct (register_classes rc classes actions) as [actions'|e] eqn:Hreg;
        [|discriminate].
      intros H. apply (scan_files_keeps _ _ _ _ H).
      exact (register_classes_adds _ _ _ _ _ _ _ Hreg Hcn Hcls Hbase Hinst).
    - destruct (skipped f); [exact (IH Hin actions)|].
      destruct (class_defs f) as [classes'|e]; [|discriminate].
      destruct (module_dict f) as [rc'|e]; [|discriminate].
      destruct (register_classes rc' classes' actions) as [actions'|e];
        [|discriminate].
      exact (IH Hin actions'). }
  destruct (dict_get (action_name inst) d) as [a|] eqn:Hget;
    [|exfalso; apply Hkey; reflexivity].
  exists a. split; [reflexivity|].
  destruct (scan_files_well_keyed files [] d Hd) as [_ Hnames].
  { split; [constructor | intros k a' []]. }
  exact (Hnames _ _ (dict_get_some_entry _ _ _ Hget)).
Qed.

Lemma registry_lookup_by_name_witness :
  dict_get (action_name UserVoteCountAction)
    [("cancel_vote", quiet_cancel_vote);
     ("user_vote_count", UserVoteCountAction)]
  = Some UserVoteCountAction.
Proof.
  apply (proj2 (registry_lookup_by_name actions_directory
                  [("cancel_vote", quiet_cancel_vote);
                   ("user_vote_count", UserVoteCountAction)] eq_refl)
           "user_vote_count" UserVoteCountAction).
  right; left; reflexivity.
Defined.

Lemma action_classes_are_registered_witness :
  exists a,
    dict_get (action_name quiet_cancel_vote)
      [("cancel_vote", quiet_cancel_vote);
       ("user_vote_count", UserVoteCountAction)]
    = Some a
    /\ action_name a = action_name quiet_cancel_vote.
Proof.
  apply (action_classes_are_registered actions_directory _
           (python_file "cancel_vote.py" "CancelVoteAction" quiet_cancel_vote)
           ["CancelVoteAction"]
           [("BaseAction",
             {| is_base_action := true; instantiate := Raise TypeError |});
            ("CancelVoteAction", action_class quiet_cancel_vote)]
           "CancelVoteAction"
           (action_class quiet_cancel_vote) quiet_cancel_vote
           eq_refl);
    try reflexivity.
  - right; right; left; reflexivity.
  - left; reflexivity.
Defined.

Lemma missing_row_escapes_witness :
  __call__ UserVoteCountAction (host_says "m!user_vote_count 4")
    {| trace := []; servers := []; platform := [Some (Forbidden 50013)] |}
  = (Raise (Forbidden 50013),
     {| trace :=
          [Log "movienightbot" ERROR (inr DoesNotExist);
           Send MsgChannel [VStr error_message] []];
        servers := [];
        platform := [] |}).
Proof.
  apply (missing_row_escapes UserVoteCountAction
           (host_says "m!user_vote_count 4")
           {| trace := []; servers := []; platform := [Some (Forbidden 50013)] |}
           movie_guild);
    reflexivity.
Defined.
